(** * VKPy: the long-poll loop and the rule/handler matching engine

    A shallow embedding of [src/__init__.py] (classes [Event], [Rule],
    [TypeRule], [MessageRule], [Handler], [VKBot]) and the properties of
    the dispatch engine proved over it.

    Layout:
    - [Py]: the fragment of Python's data model the program relies on
      (JSON-shaped values, truthiness, [==], [in], [|], [.get], [[...]],
      iteration), with the exceptions each operation raises;
    - Section [Bot]: events, rules, handlers, the class-level registry
      and the [run] loop, over an arbitrary type [W] of user state that
      the callbacks may read and change, and an arbitrary [re.match];
    - the properties, one theorem per claim of the specification. *)

From Stdlib Require Import List String Ascii ZArith Bool Lia.
Import ListNotations.

(** ** Python values and primitive operations *)

Module Py.

(** Exceptions the program can raise.  [OtherError] stands for the
    exceptions of the external collaborators (transport, API client,
    [re.error]) and of user callbacks. *)
Inductive exn : Type :=
| AttributeError
| KeyError
| TypeError
| OtherError (name : string).

Inductive result (A : Type) : Type :=
| Ok (a : A)
| Raise (e : exn).
Arguments Ok {A} a.
Arguments Raise {A} e.

(** Values: what [json()] produces (floats left out), plus plain
    objects, known only by their identity: instances, such as an
    [re.Match], of classes that define none of the special methods
    behind truthiness, [==], [|], [in], [len], iteration, indexing and
    [get].  A dict is the list of its items in insertion order; lookups
    take the first item with the key, so a list with distinct keys is
    read exactly as the dict it stands for.  A string is the text of its
    UTF-8 bytes. *)
#[local] Set Warnings "-register-all".
Inductive value : Type :=
| VNone
| VBool (b : bool)
| VInt (n : Z)
| VStr (s : string)
| VList (items : list value)
| VDict (entries : list (string * value))
| VObject (id : nat).

Fixpoint dict_lookup {A : Type} (k : string) (d : list (string * A)) : option A :=
  match d with
  | [] => None
  | (k', x) :: rest => if String.eqb k k' then Some x else dict_lookup k rest
  end.

(** [bool(v)] *)
Definition py_truthy (v : value) : bool :=
  match v with
  | VNone => false
  | VBool b => b
  | VInt n => negb (Z.eqb n 0)
  | VStr s => negb (String.eqb s "")
  | VList items => match items with [] => false | _ => true end
  | VDict entries => match entries with [] => false | _ => true end
  | VObject _ => true
  end.

(** [a == b]; [bool] is a subclass of [int], so [True == 1]. *)
Fixpoint py_eq (a b : value) {struct a} : bool :=
  match a, b with
  | VNone, VNone => true
  | VBool x, VBool y => Bool.eqb x y
  | VBool x, VInt y => Z.eqb (Z.b2z x) y
  | VInt x, VBool y => Z.eqb x (Z.b2z y)
  | VInt x, VInt y => Z.eqb x y
  | VStr x, VStr y => String.eqb x y
  | VList xs, VList ys =>
      (fix all2 (xs ys : list value) {struct xs} : bool :=
         match xs, ys with
         | [], [] => true
         | x :: xs', y :: ys' => py_eq x y && all2 xs' ys'
         | _, _ => false
         end) xs ys
  | VDict d1, VDict d2 =>
      Nat.eqb (List.length d1) (List.length d2) &&
      (fix sub (d : list (string * value)) {struct d} : bool :=
         match d with
         | [] => true
         | (k, x) :: d' =>
             match dict_lookup k d2 with
             | Some y => py_eq x y
             | None => false
             end && sub d'
         end) d1
  | VObject i, VObject j => Nat.eqb i j
  | _, _ => false
  end.

(** [sub in s] on two strings: [sub] starts at some position of [s]. *)
Fixpoint str_contains (sub s : string) : bool :=
  String.prefix sub s ||
  match s with
  | EmptyString => false
  | String _ s' => str_contains sub s'
  end.

Definition hashable (v : value) : bool :=
  match v with
  | VList _ | VDict _ => false
  | _ => true
  end.

(** [x in c] *)
Definition py_in (x c : value) : result bool :=
  match c with
  | VStr s =>
      match x with
      | VStr sub => Ok (str_contains sub s)
      | _ => Raise TypeError
      end
  | VList items => Ok (existsb (fun y => py_eq y x) items)
  | VDict entries =>
      if hashable x then
        match x with
        | VStr k => Ok (match dict_lookup k entries with Some _ => true | None => false end)
        | _ => Ok false
        end
      else Raise TypeError
  | _ => Raise TypeError
  end.

(** [a | b] (and so [a |= b]) with a [bool] or an [int] on the left, as
    the flag of [MessageRule.check] is on these values: defined when the
    right operand is a [bool] or an [int] too, a [TypeError] otherwise
    ([None], a string, a list, a dict and a plain object have no
    [__ror__] that accepts a number). *)
Definition py_or (a b : value) : result value :=
  match a, b with
  | VBool x, VBool y => Ok (VBool (x || y))
  | VBool x, VInt y => Ok (VInt (Z.lor (Z.b2z x) y))
  | VInt x, VBool y => Ok (VInt (Z.lor x (Z.b2z y)))
  | VInt x, VInt y => Ok (VInt (Z.lor x y))
  | _, _ => Raise TypeError
  end.

(** [obj.get(key, default)]: only a dict has the method. *)
Definition py_get (obj : value) (key : string) (default : value) : result value :=
  match obj with
  | VDict entries =>
      Ok (match dict_lookup key entries with Some x => x | None => default end)
  | _ => Raise AttributeError
  end.

(** [obj[key]] with a string key. *)
Definition py_getitem (obj : value) (key : string) : result value :=
  match obj with
  | VDict entries =>
      match dict_lookup key entries with
      | Some x => Ok x
      | None => Raise KeyError
      end
  | _ => Raise TypeError
  end.

(** The characters of a string: a byte [10xxxxxx] continues the
    character begun before it, every other byte begins one. *)
Definition is_continuation (c : ascii) : bool :=
  match c with
  | Ascii _ _ _ _ _ _ b6 b7 => b7 && negb b6
  end.

Definition continues (rest : string) : bool :=
  match rest with
  | String c _ => is_continuation c
  | EmptyString => false
  end.

Fixpoint code_points (s : string) : list string :=
  match s with
  | EmptyString => []
  | String c rest =>
      match code_points rest with
      | p :: ps =>
          if continues rest then String c p :: ps
          else String c EmptyString :: p :: ps
      | [] => [String c EmptyString]
      end
  end.

(** The items [for x in v] runs through. *)
Definition py_iter (v : value) : result (list value) :=
  match v with
  | VList items => Ok items
  | VDict entries => Ok (map (fun kv => VStr (fst kv)) entries)
  | VStr s => Ok (map VStr (code_points s))
  | _ => Raise TypeError
  end.

(** [len(v)] *)
Definition py_len (v : value) : result Z :=
  match v with
  | VList items => Ok (Z.of_nat (List.length items))
  | VDict entries => Ok (Z.of_nat (List.length entries))
  | VStr s => Ok (Z.of_nat (List.length (code_points s)))
  | _ => Raise TypeError
  end.

(** [any(flags)] *)
Definition py_any (flags : list bool) : bool := existsb (fun b => b) flags.

End Py.
Import Py.

Declare Scope py_scope.
Delimit Scope py_scope with py.
Open Scope py_scope.

(** Sequencing of fallible pure steps: the first exception ends them. *)
Notation "x <-? r ;; k" :=
  (match r with Ok x => k | Raise e => Raise e end)
  (at level 61, r at next level, right associativity) : py_scope.

(** A comprehension [[f(x) for x in l]] whose body may raise. *)
Fixpoint mapR {A B : Type} (f : A -> result B) (l : list A) : result (list B) :=
  match l with
  | [] => Ok []
  | x :: rest =>
      y <-? f x ;;
      ys <-? mapR f rest ;;
      Ok (y :: ys)
  end.

(** ** class Event

    [__slots__ = ('type', 'object', 'group_id', 'time_created')]; the
    constructor assigns them only for a truthy [json], so [Event()] and
    [Event({})] have no attribute at all.  [time_created] (the wall
    clock) is never read by the program and is left out. *)
Inductive Event : Type :=
| EventBlank
| EventOf (type object group_id : value).

Definition Event_init (json : value) : result Event :=
  if py_truthy json then
    t <-? py_get json "type" VNone ;;
    o <-? py_get json "object" VNone ;;
    g <-? py_get json "group_id" VNone ;;
    Ok (EventOf t o g)
  else Ok EventBlank.

(** [event.type] and [event.object]: an unset slot raises. *)
Definition Event_type (event : Event) : result value :=
  match event with
  | EventBlank => Raise AttributeError
  | EventOf t _ _ => Ok t
  end.

Definition Event_object (event : Event) : result value :=
  match event with
  | EventBlank => Raise AttributeError
  | EventOf _ o _ => Ok o
  end.

Inductive level : Type := DEBUG | INFO | WARNING | ERROR.

(** The two phases of [VKBot.run] at which it blocks on the outside
    world: the top of the outer [while] (the API call) and the top of
    the inner [while] (the HTTP request, whose URL is fixed by [server]
    and [key] and completed by [ts]); and the point after the outer
    [break]. *)
Inductive phase : Type :=
| AcquireServer
| PollBatch (server key ts : value)
| Terminated.

(** [class VKBot]: the attributes [__init__] sets on an instance.  [api]
    and [logger] are external objects; the calls made on them are
    recorded as actions. *)
Record VKBot : Type := {
  VKBot_v : value;
  VKBot_group_id : value
}.

Section Bot.

(** The state user callbacks live in, and [re.match] (its result is
    [Some id] for a match object, [None] for Python's [None]). *)
Context {W : Type}.
Variable re_match : value -> value -> result (option nat).

(** A user function taking the event: it may change the user state,
    return any value, or raise.  Callbacks are taken not to mutate the
    event they receive nor to register handlers while the loop runs. *)
Definition callable : Type := Event -> W -> result value * W.

(** What the program does to the outside world, in order: the records
    it hands to its logger (level, message template, arguments; logging
    itself is taken not to raise), the two requests it blocks on, and
    the handler callbacks it invokes. *)
Inductive action : Type :=
| Log (lvl : level) (message : string) (args : list value)
| GetLongPollServer (group_id : value)
| HttpGet (server key ts : value)
| Invoke (func : callable) (ev : Event).

(** Computations: from a user state to a result or an exception, the
    new user state, and the actions performed. *)
Definition M (A : Type) : Type := W -> result A * W * list action.

Definition ret {A : Type} (a : A) : M A := fun w => (Ok a, w, []).

Definition bind {A B : Type} (m : M A) (f : A -> M B) : M B :=
  fun w =>
    match m w with
    | (Ok a, w1, t1) =>
        match f a w1 with
        | (r, w2, t2) => (r, w2, t1 ++ t2)
        end
    | (Raise e, w1, t1) => (Raise e, w1, t1)
    end.

Definition lift {A : Type} (r : result A) : M A := fun w => (r, w, []).

Definition tell (t : list action) : M unit := fun w => (Ok tt, w, t).

Definition call (f : callable) (ev : Event) : M value :=
  fun w => match f ev w with (r, w') => (r, w', []) end.

Notation "x <- m ;; k" := (bind m (fun x => k))
  (at level 61, m at next level, right associativity) : py_scope.

(** A [for] loop threading an accumulator. *)
Fixpoint foldM {A B : Type} (f : B -> A -> M B) (l : list A) (b : B) : M B :=
  match l with
  | [] => ret b
  | x :: rest => b' <- f b x ;; foldM f rest b'
  end.

(** ** class TypeRule *)

Record TypeRule : Type := {
  TypeRule_type : value;
  TypeRule_function : option callable
}.

Definition TypeRule_check (self : TypeRule) (event : Event) : M value :=
  t <- lift (Event_type event) ;;
  if py_eq (TypeRule_type self) t then
    match TypeRule_function self with
    | Some f => call f event
    | None => ret (VBool true)
    end
  else ret (VBool false).

(** ** class MessageRule *)

Record MessageRule : Type := {
  attachment_types : value;
  payload : value;
  func_text : option callable;
  func_msg : option callable;
  regexp : value;
  commands : value
}.

(** Lines 65-66: [if self.attachment_types: check |= any([...])]. *)
Definition check_attachment_types (self : MessageRule) (msg check : value) : M value :=
  if py_truthy (attachment_types self) then
    atts <- lift (py_get msg "attachments" VNone) ;;
    items <- lift (py_iter atts) ;;
    flags <- lift (mapR (fun i => t <-? py_getitem i "type" ;;
                                  py_in t (attachment_types self)) items) ;;
    lift (py_or check (VBool (py_any flags)))
  else ret check.

(** Lines 67-68: [if self.payload: check |= msg.get('payload', {}) == self.payload]. *)
Definition check_payload (self : MessageRule) (msg check : value) : M value :=
  if py_truthy (payload self) then
    got <- lift (py_get msg "payload" (VDict [])) ;;
    lift (py_or check (VBool (py_eq got (payload self))))
  else ret check.

(** Lines 69-72: [if self.func_x: check |= self.func_x(event)]. *)
Definition check_func (f : option callable) (event : Event) (check : value) : M value :=
  match f with
  | Some g => r <- call g event ;; lift (py_or check r)
  | None => ret check
  end.

(** Lines 73-75: [if self.regexp: check |= re.match(self.regexp, msg['text'])]. *)
Definition check_regexp (self : MessageRule) (msg check : value) : M value :=
  if py_truthy (regexp self) then
    text <- lift (py_getitem msg "text") ;;
    m <- lift (re_match (regexp self) text) ;;
    lift (py_or check (match m with Some id => VObject id | None => VNone end))
  else ret check.

(** Lines 76-78: [if self.commands: for command in self.commands: ...]. *)
Definition check_commands (self : MessageRule) (msg check : value) : M value :=
  if py_truthy (commands self) then
    cmds <- lift (py_iter (commands self)) ;;
    foldM (fun check command =>
             text <- lift (py_getitem msg "text") ;;
             b <- lift (py_in command text) ;;
             lift (py_or check (VBool b)))
          cmds check
  else ret check.

Definition MessageRule_check (self : MessageRule) (event : Event) : M value :=
  t <- lift (Event_type event) ;;
  if py_eq t (VStr "message_new") then
    msg <- lift (Event_object event) ;;
    check <- ret (VBool false) ;;
    check <- check_attachment_types self msg check ;;
    check <- check_payload self msg check ;;
    check <- check_func (func_text self) event check ;;
    check <- check_func (func_msg self) event check ;;
    check <- check_regexp self msg check ;;
    check <- check_commands self msg check ;;
    ret check
  else ret (VBool false).

(** ** class Rule and its subclasses

    [Rule.check] itself is meant to raise [NotImplementedError], but the
    message is built with [%] from a string that has no conversion
    specifier, so building it raises [TypeError] first.  [CustomRule] is
    a user subclass overriding [check]. *)
Inductive Rule : Type :=
| BaseRule
| OfTypeRule (r : TypeRule)
| OfMessageRule (r : MessageRule)
| CustomRule (check : callable).

Definition Rule_check (self : Rule) (event : Event) : M value :=
  match self with
  | BaseRule => lift (Raise TypeError)
  | OfTypeRule r => TypeRule_check r event
  | OfMessageRule r => MessageRule_check r event
  | CustomRule check => call check event
  end.

(** ** class Handler *)

Record Handler : Type := {
  func : callable;
  rule : Rule
}.

Definition Handler_handle (self : Handler) (ev : Event) : M bool :=
  r <- Rule_check (rule self) ev ;;
  if py_truthy r then
    _ <- tell [Invoke (func self) ev] ;;
    _ <- call (func self) ev ;;
    ret true
  else ret false.

(** ** class VKBot: the registry

    [_handlers = []] in the class body is one list object, an attribute
    of the class.  An instance has no [_handlers] of its own, so
    [self._handlers] is that list for every instance, and [append]
    changes it in place. *)
Record VKBot_class : Type := {
  _handlers : list Handler
}.

Definition self_handlers (self : VKBot) (cls : VKBot_class) : list Handler :=
  _handlers cls.

Definition self_handlers_append (self : VKBot) (h : Handler) (cls : VKBot_class)
  : VKBot_class :=
  {| _handlers := _handlers cls ++ [h] |}.

(** [handle_message] called with keyword arguments [message_rule_args],
    and the decorator it returns applied to [func]: the decorator gives
    back [func]; the class state after comes with it. *)
Definition handle_message (self : VKBot) (message_rule_args : MessageRule)
    (func : callable) (cls : VKBot_class) : callable * VKBot_class :=
  (func,
   self_handlers_append self
     {| func := func; rule := OfMessageRule message_rule_args |} cls).

(** [handle_event(rule, event_type)(func)] *)
Definition handle_event (self : VKBot) (rule : option Rule) (event_type : value)
    (func : callable) (cls : VKBot_class) : callable * VKBot_class :=
  match rule with
  | Some r =>
      (func, self_handlers_append self {| func := func; rule := r |} cls)
  | None =>
      (func,
       self_handlers_append self
         {| func := func;
            rule := OfTypeRule {| TypeRule_type := event_type;
                                  TypeRule_function := None |} |} cls)
  end.

(** ** VKBot.run

    Lines 151-153, [for handler in self._handlers: if handler.handle(ev):
    break]: the result is [true] when the loop was left by [break]. *)
Fixpoint dispatch (handlers : list Handler) (ev : Event) : M bool :=
  match handlers with
  | [] => ret false
  | handler :: rest =>
      accepted <- Handler_handle handler ev ;;
      if accepted then ret true else dispatch rest ev
  end.

(** Lines 149-156: the body of the loop over the updates, with the
    [else] branch of the inner [for]. *)
Definition process_update (self : VKBot) (cls : VKBot_class) (i : Z) (event : value)
  : M unit :=
  _ <- tell [Log DEBUG "Processing update {0}: {1}" [VInt i; event]] ;;
  ev <- lift (Event_init event) ;;
  broke <- dispatch (self_handlers self cls) ev ;;
  if broke then ret tt
  else
    t <- lift (Event_type ev) ;;
    tell [Log WARNING "Event {0} wasn't processed by any handler." [t]].

(** Line 148: [for i, event in zip(count(), updates)]. *)
Fixpoint process_updates (self : VKBot) (cls : VKBot_class) (i : Z)
    (updates : list value) : M unit :=
  match updates with
  | [] => ret tt
  | event :: rest =>
      _ <- process_update self cls i event ;;
      process_updates self cls (i + 1) rest
  end.

(** Lines 144-156. *)
Definition process_batch (self : VKBot) (cls : VKBot_class) (rq : value) : M unit :=
  updates <- lift (py_get rq "updates" (VList [])) ;;
  n <- lift (py_len updates) ;;
  _ <- tell [Log DEBUG "Got {0} new updates" [VInt n]] ;;
  items <- lift (py_iter updates) ;;
  process_updates self cls 0 items.

(** What [run] does on reaching a phase, up to and including the call
    it blocks on (lines 129-130 and 135-136).  The URL text is kept as
    the three values it is formatted from: they are what the request is
    made with when the server and the key hold no brace ([url_formats]
    below).  Line 136 formats the URL text a second time, so a brace in
    either of them makes [url.format] raise, or alters the text, before
    any request.  A response in the list given to [run_from] answers a
    request that was made; what is stated about the request that
    follows a new descriptor carries [url_formats] as a hypothesis. *)
Definition issue (self : VKBot) (ph : phase) : list action :=
  match ph with
  | AcquireServer =>
      [Log INFO "Getting new longpoll server" [];
       GetLongPollServer (VKBot_group_id self)]
  | PollBatch server key ts =>
      [Log DEBUG "Getting updates" []; HttpGet server key ts]
  | Terminated => []
  end.

(** The call [run] blocks on in a phase, if any; for a polling phase,
    the request of line 136 once its URL is formatted. *)
Definition request_of (self : VKBot) (ph : phase) : option action :=
  match ph with
  | AcquireServer => Some (GetLongPollServer (VKBot_group_id self))
  | PollBatch server key ts => Some (HttpGet server key ts)
  | Terminated => None
  end.

(** What [run] does from the moment the blocking call of phase [ph]
    returns (or raises) until the next blocking call or the end:
    lines 131-133 after the API call; lines 137-158, and 159-161 after
    a [break], after the HTTP request. *)
Definition run_step (self : VKBot) (reload : bool) (cls : VKBot_class)
    (ph : phase) (response : result value) : M phase :=
  match ph with
  | AcquireServer =>
      s <- lift response ;;
      _ <- tell [Log DEBUG "getLongPollServer returned {0}" [s]] ;;
      ts <- lift (py_getitem s "ts") ;;
      server <- lift (py_getitem s "server") ;;
      key <- lift (py_getitem s "key") ;;
      ret (PollBatch server key ts)
  | PollBatch server key ts =>
      rq <- lift response ;;
      failed <- lift (py_get rq "failed" VNone) ;;
      if py_truthy failed then
        code <- lift (py_getitem rq "failed") ;;
        _ <- tell [Log ERROR "LongPoll failed. Code: {0}" [code]] ;;
        code <- lift (py_getitem rq "failed") ;;
        if py_eq code (VInt 1) then ret (PollBatch server key ts)
        else if reload then ret AcquireServer
        else
          _ <- tell [Log INFO "Shutting down." []] ;;
          ret Terminated
      else
        _ <- process_batch self cls rq ;;
        ts' <- lift (py_get rq "ts" (VInt 1)) ;;
        ret (PollBatch server key ts')
  | Terminated => ret Terminated
  end.

(** [run] driven by the responses of the outside world, one per blocking
    call, for as long as there are responses. *)
Fixpoint run_from (self : VKBot) (reload : bool) (cls : VKBot_class)
    (ph : phase) (responses : list (result value)) : M phase :=
  match ph, responses with
  | Terminated, _ => ret Terminated
  | _, [] => ret ph
  | _, response :: rest =>
      _ <- tell (issue self ph) ;;
      ph' <- run_step self reload cls ph response ;;
      run_from self reload cls ph' rest
  end.

Definition run (self : VKBot) (threaded reload : bool) (cls : VKBot_class)
    (responses : list (result value)) : M phase :=
  run_from self reload cls AcquireServer responses.

(** The cursors sent to the polling server, in order. *)
Fixpoint cursors_sent (t : list action) : list value :=
  match t with
  | [] => []
  | HttpGet _ _ ts :: rest => ts :: cursors_sent rest
  | _ :: rest => cursors_sent rest
  end.

(** The number of polling-server descriptors requested. *)
Fixpoint acquisitions (t : list action) : nat :=
  match t with
  | [] => 0
  | GetLongPollServer _ :: rest => S (acquisitions rest)
  | _ :: rest => acquisitions rest
  end.

End Bot.

(** ** Readings of the specification and sample data *)

(** [MessageRule()] with every keyword argument at its default. *)
Definition MessageRule_default {W : Type} : @MessageRule W :=
  {| attachment_types := VNone; payload := VNone; func_text := None;
     func_msg := None; regexp := VNone; commands := VNone |}.

(** [MessageRule(commands=cmds)] *)
Definition only_commands {W : Type} (cmds : value) : @MessageRule W :=
  {| attachment_types := VNone; payload := VNone; func_text := None;
     func_msg := None; regexp := VNone; commands := cmds |}.

(** [MessageRule(attachment_types=kinds)], [MessageRule(payload=p)],
    [MessageRule(func_text=f)] and [MessageRule(func_msg=f)] *)
Definition only_attachment_types {W : Type} (kinds : value) : @MessageRule W :=
  {| attachment_types := kinds; payload := VNone; func_text := None;
     func_msg := None; regexp := VNone; commands := VNone |}.

Definition only_payload {W : Type} (p : value) : @MessageRule W :=
  {| attachment_types := VNone; payload := p; func_text := None;
     func_msg := None; regexp := VNone; commands := VNone |}.

Definition only_func_text {W : Type} (f : @callable W) : @MessageRule W :=
  {| attachment_types := VNone; payload := VNone; func_text := Some f;
     func_msg := None; regexp := VNone; commands := VNone |}.

Definition only_func_msg {W : Type} (f : @callable W) : @MessageRule W :=
  {| attachment_types := VNone; payload := VNone; func_text := None;
     func_msg := Some f; regexp := VNone; commands := VNone |}.

(** The [type] of an attachment that is a dict with one. *)
Definition attachment_type (a : value) : value :=
  match a with
  | VDict e => match dict_lookup "type" e with Some k => k | None => VNone end
  | _ => VNone
  end.

(** [MessageRule(regexp=pattern)] *)
Definition only_regexp {W : Type} (pattern : value) : @MessageRule W :=
  {| attachment_types := VNone; payload := VNone; func_text := None;
     func_msg := None; regexp := pattern; commands := VNone |}.

(** [TypeRule(event_type)] *)
Definition TypeRule_of {W : Type} (event_type : value) : @TypeRule W :=
  {| TypeRule_type := event_type; TypeRule_function := None |}.

(** A [message_new] event whose message holds only a text. *)
Definition message_event (text : string) : Event :=
  EventOf (VStr "message_new") (VDict [("text"%string, VStr text)]) VNone.

(** [VKBot(api, group_id)] with the default API version. *)
Definition VKBot_init (group_id : value) : VKBot :=
  {| VKBot_v := VStr "5.80"; VKBot_group_id := group_id |}.

(** The class right after the module is imported. *)
Definition VKBot_class_initial {W : Type} : @VKBot_class W :=
  {| _handlers := [] |}.

(** An [re.match] that finds nothing, and a callback that stores a
    number in a user state made of one number. *)
Definition never_matches : value -> value -> result (option nat) :=
  fun _ _ => Ok None.

Definition store (k : nat) : @callable nat :=
  fun _ _ => (Ok VNone, k).

Definition storing_handler (k : nat) : @Handler nat :=
  {| func := store k; rule := OfTypeRule (TypeRule_of (VStr "message_new")) |}.

(** A rule with every condition but [regexp] configured, and a message
    that holds what those conditions read. *)
Definition sample_rule : @MessageRule nat :=
  {| attachment_types := VList [VStr "photo"; VStr "doc"];
     payload := VDict [("button"%string, VStr "1")];
     func_text := Some (fun _ w => (Ok (VBool false), w));
     func_msg := Some (fun _ w => (Ok (VBool false), w));
     regexp := VNone;
     commands := VList (map VStr ["/start"%string; "/help"%string]) |}.

Definition sample_message : Event :=
  EventOf (VStr "message_new")
    (VDict [("text"%string, VStr "hello");
            ("attachments"%string, VList [VDict [("type"%string, VStr "doc")]])])
    (VInt 171).

(** Handlers in registration order: one for wall posts, then two for
    new messages. *)
Definition wall_handler : @Handler nat :=
  {| func := store 9; rule := OfTypeRule (TypeRule_of (VStr "wall_post_new")) |}.

(** A polling-server descriptor and three responses without failure,
    the last one without a [ts]. *)
Definition sample_descriptor : list (string * value) :=
  [("key"%string, VStr "k1"); ("server"%string, VStr "https://lp.vk.com/wh171");
   ("ts"%string, VStr "10")].

Definition sample_update : value :=
  VDict [("type"%string, VStr "message_new");
         ("object"%string, VDict [("text"%string, VStr "hi")]);
         ("group_id"%string, VInt 171)].

Definition sample_responses : list (list (string * value)) :=
  [ [("ts"%string, VStr "11"); ("updates"%string, VList [sample_update])];
    [("ts"%string, VStr "12"); ("updates"%string, VList [])];
    [("updates"%string, VList [sample_update; sample_update])] ].

(** A list-valued keyword argument of [MessageRule]: left at [None]
    (no item) or given as a list. *)
Definition configured_list (v : value) (l : list value) : Prop :=
  (v = VNone /\ l = []) \/ v = VList l.

(** The truth values of the conditions of [MessageRule.check]: some
    attachment has a type among [kinds]; the message's payload equals a
    configured (truthy) payload; some command occurs in the text. *)
Definition attachments_hold (kinds atts : list value) : bool :=
  existsb (fun a => existsb (fun y => py_eq y (attachment_type a)) kinds) atts.

Definition payload_holds (p : value) (d : list (string * value)) : bool :=
  py_truthy p &&
  py_eq (match dict_lookup "payload" d with Some x => x | None => VDict [] end) p.

Definition commands_hold (cs : list string) (txt : string) : bool :=
  existsb (fun cmd => str_contains cmd txt) cs.

(** [sub] occurs in [s]. *)
Definition occurs_in (sub s : string) : Prop :=
  exists pre post : string, s = (pre ++ sub ++ post)%string.


(** The next cursor a response without failure leads to (line 158). *)
Definition next_cursor (d : list (string * value)) : value :=
  match dict_lookup "ts" d with
  | Some ts => ts
  | None => VInt 1
  end.

(** [rq.get('failed')] is falsy: the response signals no failure. *)
Definition no_failure (d : list (string * value)) : Prop :=
  py_truthy (match dict_lookup "failed" d with Some c => c | None => VNone end) = false.

(** The batch of a response: [rq.get('updates', [])]. *)
Definition updates_of (d : list (string * value)) : value :=
  match dict_lookup "updates" d with
  | Some updates => updates
  | None => VList []
  end.

(** Line 136 formats the URL a second time, so a brace that [server] or
    [key] brought into it at line 133 is read as part of a replacement
    field.  [url_formats server key]: both are strings without braces
    (or [None], a boolean or an integer, whose text has none), so that
    the only field left is [ts] and the second formatting succeeds
    whatever the cursor. *)
Definition brace_free (v : value) : bool :=
  match v with
  | VStr s => negb (str_contains "{" s || str_contains "}" s)
  | VNone | VBool _ | VInt _ => true
  | _ => false
  end.

Definition url_formats (server key : value) : bool :=
  brace_free server && brace_free key.

Section Readings.

Context {W : Type}.
Variable re_match : value -> value -> result (option nat).

(** [silent m]: [m] performs no action on the outside world. *)
Definition silent {A : Type} (m : @M W A) : Prop := forall w, snd (m w) = [].

(** A trace without any request to the API or to the polling server,
    and a computation that makes none. *)
Definition no_requests (t : list (@action W)) : Prop :=
  cursors_sent t = [] /\ acquisitions t = 0.

Definition quiet {A : Type} (m : @M W A) : Prop := forall w, no_requests (snd (m w)).

(** A computation returns a boolean without raising. *)
Definition returns_bool (m : @M W value) (w : W) : Prop :=
  exists b w' t, m w = (Ok (VBool b), w', t).


(** An optional user predicate that, on this event and state, returns a
    boolean and leaves the state as it is. *)
Definition well_behaved (f : option (@callable W)) (ev : Event) (w : W) : Prop :=
  forall g, f = Some g -> exists b, g ev w = (Ok (VBool b), w).

(** What an optional user predicate answers on an event: a boolean and
    the state it leaves; an absent predicate adds nothing to the flag
    and touches nothing. *)
Definition answers (f : option (@callable W)) (ev : Event) (w : W)
    (b : bool) (w' : W) : Prop :=
  match f with
  | None => b = false /\ w' = w
  | Some g => g ev w = (Ok (VBool b), w')
  end.

(** An attachment the [attachment_types] condition can test: a dict
    with a [type] that can be looked for in [kinds]. *)
Definition item_readable (kinds a : value) : Prop :=
  exists e k b, a = VDict e /\ dict_lookup "type" e = Some k /\ py_in k kinds = Ok b.

(** The message holds what a configured [attachment_types] condition
    reads: it is a dict, and what it has under [attachments] can be
    iterated and yields testable attachments. *)
Definition attachments_readable (self : @MessageRule W) (obj : value) : Prop :=
  py_truthy (attachment_types self) = true ->
  exists d items,
    obj = VDict d /\
    py_iter (match dict_lookup "attachments" d with Some x => x | None => VNone end)
    = Ok items /\
    Forall (item_readable (attachment_types self)) items.

(** A configured [payload] condition reads the message with [get]: the
    message is a dict. *)
Definition payload_readable (self : @MessageRule W) (obj : value) : Prop :=
  py_truthy (payload self) = true -> exists d, obj = VDict d.

(** The message holds what a configured [commands] condition reads: the
    commands can be iterated, the message is a dict with a [text], and
    each command can be looked for in that text. *)
Definition text_readable (self : @MessageRule W) (obj : value) : Prop :=
  py_truthy (commands self) = true ->
  exists cmds d text,
    py_iter (commands self) = Ok cmds /\
    obj = VDict d /\
    dict_lookup "text" d = Some text /\
    Forall (fun c => exists b, py_in c text = Ok b) cmds.

(** The events and states on which the [check] of a built-in rule
    returns a boolean and leaves everything as it was.  The event has
    its attributes.  For a [TypeRule]: when the types are equal, the
    refinement function, if any, returns a boolean and keeps the state.
    For a [MessageRule] on a [message_new] event: no [regexp] is
    configured, the two predicates answer booleans and together leave
    the state as it was, and the message holds what each configured
    condition reads. *)
Definition check_defined (r : @Rule W) (ev : Event) (w : W) : Prop :=
  match r, ev with
  | OfTypeRule R, EventOf ty _ _ =>
      py_eq (TypeRule_type R) ty = true ->
      well_behaved (TypeRule_function R) ev w
  | OfMessageRule R, EventOf ty obj _ =>
      py_eq ty (VStr "message_new") = true ->
      py_truthy (regexp R) = false /\
      (exists bt bm w1,
         answers (func_text R) ev w bt w1 /\ answers (func_msg R) ev w1 bm w) /\
      attachments_readable R obj /\
      payload_readable R obj /\
      text_readable R obj
  | _, _ => False
  end.


(** The reading of "registering the same handler a second time leaves
    the sequence as it was after the first registration". *)
Definition registration_idempotent : Prop :=
  forall (self : VKBot) (r : option (@Rule W)) (event_type : value)
         (f : @callable W) (cls : VKBot_class),
    _handlers (snd (handle_event self r event_type f
                      (snd (handle_event self r event_type f cls)))) =
    _handlers (snd (handle_event self r event_type f cls)).


(** [batch_dispatched handlers i updates w w' t]: every update of the
    batch, in order and numbered from [i], was made an event and taken
    through a dispatch pass over [handlers] that ended without
    exception, an unhandled event being reported by a warning; [w'] and
    [t] are the state and the actions after the last one. *)
Inductive batch_dispatched (handlers : list (@Handler W))
  : Z -> list value -> W -> W -> list (@action W) -> Prop :=
| batch_end (i : Z) (w : W) : batch_dispatched handlers i [] w w []
| batch_accepted (i : Z) (u : value) (us : list value) (ev : Event)
    (w w1 w2 : W) (t tr : list action) :
    Event_init u = Ok ev ->
    dispatch re_match handlers ev w = (Ok true, w1, t) ->
    batch_dispatched handlers (i + 1) us w1 w2 tr ->
    batch_dispatched handlers i (u :: us) w w2
      (Log DEBUG "Processing update {0}: {1}" [VInt i; u] :: t ++ tr)
| batch_unhandled (i : Z) (u : value) (us : list value) (ev : Event) (ty : value)
    (w w1 w2 : W) (t tr : list action) :
    Event_init u = Ok ev ->
    Event_type ev = Ok ty ->
    dispatch re_match handlers ev w = (Ok false, w1, t) ->
    batch_dispatched handlers (i + 1) us w1 w2 tr ->
    batch_dispatched handlers i (u :: us) w w2
      (Log DEBUG "Processing update {0}: {1}" [VInt i; u] :: t ++
       Log WARNING "Event {0} wasn't processed by any handler." [ty] :: tr).

(** [cycles handlers server key ts responses w w' t]: poll cycle after
    poll cycle, each request carries the cursor reached so far, the
    whole batch of the response (the items [us] its updates run
    through) is dispatched, and the next cycle starts from the cursor
    that response leads to. *)
Inductive cycles (handlers : list (@Handler W)) (server key : value)
  : value -> list (list (string * value)) -> W -> W -> list (@action W) -> Prop :=
| cycles_end (ts : value) (w : W) : cycles handlers server key ts [] w w []
| cycles_next (ts : value) (d : list (string * value))
    (ds : list (list (string * value))) (us : list value)
    (w w1 w2 : W) (tb tr : list action) :
    py_iter (updates_of d) = Ok us ->
    batch_dispatched handlers 0 us w w1 tb ->
    cycles handlers server key (next_cursor d) ds w1 w2 tr ->
    cycles handlers server key ts (d :: ds) w w2
      ([Log DEBUG "Getting updates" []; HttpGet server key ts;
        Log DEBUG "Got {0} new updates" [VInt (Z.of_nat (List.length us))]] ++
       tb ++ tr).

(** The reading of "after a registration every instance's dispatch loop
    offers events to that handler": the pass of any instance over any
    event ends as the new handler's [handle] ends. *)
Definition registered_handler_always_offered : Prop :=
  forall (b1 b2 : VKBot) (r : @Rule W) (event_type : value) (f : @callable W)
         (cls : VKBot_class) (ev : Event) (w : W),
    exists w1,
      dispatch re_match
        (self_handlers b2 (snd (handle_event b1 (Some r) event_type f cls))) ev w
      = Handler_handle re_match {| func := f; rule := r |} ev w1.

(** [plain_results f]: what the predicate [f] returns is never an
    object, whose class could define [__or__] or [__ror__] and so take
    part in [check |= ...]; it is [None], a boolean, an integer, a
    string, a list or a dict. *)
Definition plain_results (f : option (@callable W)) : Prop :=
  forall (g : @callable W) (ev : Event) (w w' : W) (id : nat),
    f = Some g -> g ev w <> (Ok (VObject id), w').

(** [plain_rule r]: for a MessageRule, neither the configured payload
    nor anything the predicates return is an object. *)
Definition plain_rule (r : @Rule W) : Prop :=
  match r with
  | OfMessageRule R =>
      (forall id, payload R <> VObject id) /\
      plain_results (func_text R) /\
      plain_results (func_msg R)
  | _ => True
  end.

(** A rule of one of the two built-in classes. *)
Definition is_builtin (r : @Rule W) : bool :=
  match r with
  | OfTypeRule _ | OfMessageRule _ => true
  | _ => false
  end.

(** One application of a registration decorator: the instance it is
    called on, its arguments, and the decorated callback. *)
Inductive registration : Type :=
| ByParams (self : VKBot) (message_rule_args : @MessageRule W) (f : @callable W)
| ByRule (self : VKBot) (rule : option (@Rule W)) (event_type : value)
    (f : @callable W).

Definition register (cls : @VKBot_class W) (reg : registration) : VKBot_class :=
  match reg with
  | ByParams self args f => snd (handle_message self args f cls)
  | ByRule self r event_type f => snd (handle_event self r event_type f cls)
  end.

(** The handler a registration stands for. *)
Definition registered (reg : registration) : @Handler W :=
  match reg with
  | ByParams _ args f => {| func := f; rule := OfMessageRule args |}
  | ByRule _ (Some r) _ f => {| func := f; rule := r |}
  | ByRule _ None event_type f =>
      {| func := f; rule := OfTypeRule (TypeRule_of event_type) |}
  end.

End Readings.

(** ** Facts about the Python primitives *)

Lemma prefix_iff (sub s : string) :
  String.prefix sub s = true <-> exists post : string, s = (sub ++ post)%string.
Proof.
  revert s; induction sub as [|a sub IH]; intros s; simpl.
  - destruct s; split; intros; eauto.
  - destruct s as [|b s]; simpl.
    + split; [discriminate | intros [post H]; discriminate].
    + destruct (ascii_dec a b) as [->|Hab].
      * rewrite IH. split; intros [post H]; exists post.
        -- now rewrite H.
        -- now injection H.
      * split; [discriminate | intros [post H]; congruence].
Qed.

Lemma str_contains_iff (sub s : string) :
  str_contains sub s = true <-> occurs_in sub s.
Proof.
  unfold occurs_in. induction s as [|c s IH]; cbn [str_contains].
  - rewrite orb_false_r, prefix_iff. split.
    + intros [post H]. exists EmptyString, post. exact H.
    + intros [pre [post H]]. destruct pre; simpl in H.
      * now exists post.
      * discriminate.
  - rewrite orb_true_iff, prefix_iff, IH. split.
    + intros [[post H] | [pre [post H]]].
      * exists EmptyString, post. exact H.
      * exists (String c pre), post. simpl. now rewrite H.
    + intros [pre [post H]]. destruct pre as [|c' pre]; simpl in H.
      * left. now exists post.
      * right. exists pre, post. now injection H.
Qed.

Lemma py_eq_one_truthy (code : value) :
  py_eq code (VInt 1) = true -> py_truthy code = true.
Proof.
  destruct code as [ | [|] | n | | | | ]; simpl; try discriminate; auto.
  intros H. apply Z.eqb_eq in H. now subst.
Qed.

Lemma py_any_map {A : Type} (f : A -> bool) (l : list A) :
  py_any (map f l) = existsb f l.
Proof.
  unfold py_any. induction l as [|a l IH]; simpl; [reflexivity|]. now rewrite IH.
Qed.

Lemma code_points_nonempty (c : ascii) (s : string) :
  exists p ps, code_points (String c s) = p :: ps.
Proof.
  cbn [code_points]. destruct (code_points s) as [|p ps]; [eauto|].
  destruct (continues s); eauto.
Qed.

Lemma py_or_bools (x y : bool) : py_or (VBool x) (VBool y) = Ok (VBool (x || y)).
Proof. reflexivity. Qed.

(** Nothing can be or-ed with [None] or with an opaque object. *)
Lemma py_or_match_raises (check : value) (m : option nat) :
  py_or check (match m with Some id => VObject id | None => VNone end) = Raise TypeError.
Proof. destruct check, m; reflexivity. Qed.

(** ** Facts about computations *)

Section Properties.

Context {W : Type}.
Variable re_match : value -> value -> result (option nat).

Notation "x <- m ;; k" := (bind m (fun x => k))
  (at level 61, m at next level, right associativity) : py_scope.

Lemma bind_ok {A B : Type} (m : M A) (f : A -> M B) (w w1 : W) (a : A) (t1 : list action) :
  m w = (Ok a, w1, t1) ->
  bind m f w = (fst (fst (f a w1)), snd (fst (f a w1)), t1 ++ snd (f a w1)).
Proof.
  intros H. unfold bind. rewrite H. now destruct (f a w1) as [[r w2] t2].
Qed.

Lemma bind_raise {A B : Type} (m : M A) (f : A -> M B) (w w1 : W) (e : exn) (t1 : list action) :
  m w = (Raise e, w1, t1) -> bind m f w = (Raise e, w1, t1).
Proof. intros H. unfold bind. now rewrite H. Qed.

Lemma bind_lift_ok {A B : Type} (a : A) (f : A -> M B) (w : W) :
  bind (lift (Ok a)) f w = f a w.
Proof. unfold bind, lift. now destruct (f a w) as [[r w2] t2]. Qed.

Lemma bind_lift_raise {A B : Type} (e : exn) (f : A -> M B) (w : W) :
  bind (lift (Raise e)) f w = (Raise e, w, []).
Proof. reflexivity. Qed.

Lemma bind_ret {A B : Type} (a : A) (f : A -> M B) (w : W) :
  bind (ret a) f w = f a w.
Proof. apply (bind_lift_ok a f w). Qed.

Lemma bind_ok_inv {A B : Type} (m : @M W A) (f : A -> @M W B) (w w' : W)
    (b : B) (t : list action) :
  bind m f w = (Ok b, w', t) ->
  exists a w1 t1 t2, m w = (Ok a, w1, t1) /\ f a w1 = (Ok b, w', t2) /\ t = t1 ++ t2.
Proof.
  unfold bind. destruct (m w) as [[[a|e] w1] t1]; [|discriminate].
  destruct (f a w1) as [[r w2] t2] eqn:Hf. intros [= -> -> <-].
  exists a, w1, t1, t2. repeat split. exact Hf.
Qed.

Lemma lift_ok_inv {A : Type} (r : result A) (a : A) (w w' : W) (t : list (@action W)) :
  lift r w = (Ok a, w', t) -> r = Ok a /\ w' = w /\ t = [].
Proof. unfold lift. intros [= -> <- <-]. auto. Qed.

(** A computation that ends normally in the same state having done
    nothing passes the state on to what follows. *)
Lemma bind_pure {A B : Type} (m : M A) (f : A -> M B) (w : W) (a : A) :
  m w = (Ok a, w, []) -> bind m f w = f a w.
Proof.
  intros H. unfold bind. rewrite H. now destruct (f a w) as [[r w2] t2].
Qed.

Lemma silent_ret {A : Type} (a : A) : silent (@ret W A a).
Proof. intros w; reflexivity. Qed.

Lemma silent_lift {A : Type} (r : result A) : silent (@lift W A r).
Proof. intros w; reflexivity. Qed.

Lemma silent_call (f : @callable W) (ev : Event) : silent (call f ev).
Proof. intros w; unfold call. now destruct (f ev w). Qed.

Lemma silent_bind {A B : Type} (m : @M W A) (f : A -> @M W B) :
  silent m -> (forall a, silent (f a)) -> silent (bind m f).
Proof.
  intros Hm Hf w. unfold bind. specialize (Hm w).
  destruct (m w) as [[[a|e] w1] t1]; simpl in Hm; subst; simpl; auto.
  specialize (Hf a w1). destruct (f a w1) as [[r w2] t2]. simpl in *. now subst.
Qed.

Lemma silent_if {A : Type} (b : bool) (m1 m2 : @M W A) :
  silent m1 -> silent m2 -> silent (if b then m1 else m2).
Proof. now destruct b. Qed.

Lemma silent_foldM {A B : Type} (f : B -> A -> @M W B) (l : list A) :
  (forall b x, silent (f b x)) -> forall b, silent (foldM f l b).
Proof.
  intros Hf. induction l as [|x l IH]; intros b; simpl.
  - apply silent_ret.
  - apply silent_bind; auto.
Qed.

Create HintDb silent.
#[local] Hint Resolve silent_ret silent_lift silent_call silent_bind silent_if
  silent_foldM : silent.

Lemma TypeRule_check_silent (self : @TypeRule W) (ev : Event) :
  silent (TypeRule_check self ev).
Proof.
  unfold TypeRule_check. apply silent_bind; auto with silent.
  intros t. apply silent_if; auto with silent.
  destruct (TypeRule_function self); auto with silent.
Qed.

Lemma check_func_silent (f : option (@callable W)) (ev : Event) (check : value) :
  silent (check_func f ev check).
Proof. unfold check_func. destruct f; auto with silent. Qed.

Lemma MessageRule_check_silent (self : @MessageRule W) (ev : Event) :
  silent (MessageRule_check re_match self ev).
Proof.
  unfold MessageRule_check, check_attachment_types, check_payload,
    check_regexp, check_commands.
  pose proof check_func_silent.
  repeat first [ apply silent_bind; [ | intros ? ]
               | apply silent_if
               | apply silent_foldM; intros ? ?
               | solve [ auto with silent ] ].
Qed.

Lemma Rule_check_silent (r : @Rule W) (ev : Event) :
  silent (Rule_check re_match r ev).
Proof.
  destruct r; simpl; auto using TypeRule_check_silent, MessageRule_check_silent
    with silent.
Qed.

(** ** TypeRule.check *)

Lemma call_eq (f : callable) (ev : Event) (w w' : W) (r : result value) :
  f ev w = (r, w') -> call f ev w = (r, w', []).
Proof. intros H. unfold call. now rewrite H. Qed.

Lemma call_inv (f : callable) (ev : Event) (w w' : W) (r : result value) (t : list action) :
  call f ev w = (r, w', t) -> f ev w = (r, w') /\ t = [].
Proof.
  unfold call. destruct (f ev w) as [r0 w0]. intros H. injection H as -> -> <-. auto.
Qed.

(** C6.  For every event and every TypeRule, [check] returns a truthy
    value exactly when the event has a type equal to the rule's
    configured type and either the rule has no refinement function or
    that function, applied to the event, returns a truthy value. *)
Theorem TypeRule_check_truthy_iff (R : TypeRule) (E : Event) (w : W) :
  (exists v w' t, TypeRule_check R E w = (Ok v, w', t) /\ py_truthy v = true) <->
  (exists ty, Event_type E = Ok ty /\ py_eq (TypeRule_type R) ty = true /\
     (TypeRule_function R = None \/
      exists f v w', TypeRule_function R = Some f /\
                     f E w = (Ok v, w') /\ py_truthy v = true)).
Proof.
  unfold TypeRule_check. destruct (Event_type E) as [ty|e] eqn:Hty.
  - rewrite bind_lift_ok.
    destruct (py_eq (TypeRule_type R) ty) eqn:Heq.
    + destruct (TypeRule_function R) as [f|] eqn:Hf.
      * split.
        -- intros (v & w' & t & Hc & Hv). apply call_inv in Hc as [Hc _].
           exists ty. repeat split; auto. right. exists f, v, w'. auto.
        -- intros (ty' & _ & _ & [Hn | (f' & v & w' & Hf' & Hc & Hv)]);
             [discriminate|].
           injection Hf' as <-. exists v, w', []. split; auto using call_eq.
      * split.
        -- intros _. exists ty. auto.
        -- intros _. exists (VBool true), w, []. auto.
    + split.
      * intros (v & w' & t & Hc & Hv). injection Hc as <- _ _. discriminate.
      * intros (ty' & Hty' & Heq' & _). injection Hty' as <-. congruence.
  - rewrite bind_lift_raise. split.
    + intros (v & w' & t & Hc & _). discriminate.
    + intros (ty' & Hty' & _). discriminate.
Qed.

(** ** MessageRule.check, condition by condition *)

Lemma mapR_total {A B : Type} (f : A -> result B) (l : list A) :
  Forall (fun a => exists y, f a = Ok y) l -> exists ys, mapR f l = Ok ys.
Proof.
  induction 1 as [|a l [y Hy] _ [ys IH]]; simpl.
  - now exists [].
  - rewrite Hy, IH. now exists (y :: ys).
Qed.

Lemma check_regexp_unset (self : MessageRule) (msg check : value) (w : W) :
  py_truthy (regexp self) = false ->
  check_regexp re_match self msg check w = (Ok check, w, []).
Proof. intros H. unfold check_regexp. now rewrite H. Qed.

(** The loop over the commands: one substring test per command, or-ed
    into the flag. *)
Lemma commands_loop (msg : value) (txt : string) (cs : list string) (c : bool) (w : W) :
  py_getitem msg "text" = Ok (VStr txt) ->
  foldM (fun check command =>
           text <- lift (py_getitem msg "text") ;;
           b <- lift (py_in command text) ;;
           lift (py_or check (VBool b)))
        (map VStr cs) (VBool c) w
  = (Ok (VBool (c || existsb (fun cmd => str_contains cmd txt) cs)), w, []).
Proof.
  intros Htxt. revert c. induction cs as [|cmd cs IH]; intros c; simpl.
  - now rewrite orb_false_r.
  - rewrite (bind_pure _ _ w (VBool (c || str_contains cmd txt))).
    + rewrite IH. now rewrite orb_assoc.
    + rewrite Htxt, bind_lift_ok. simpl. now rewrite bind_lift_ok.
Qed.

Lemma check_commands_strings (self : MessageRule) (d : list (string * value))
    (cs : list string) (txt : string) (c : bool) (w : W) :
  commands self = VList (map VStr cs) ->
  (cs <> [] -> dict_lookup "text" d = Some (VStr txt)) ->
  check_commands self (VDict d) (VBool c) w
  = (Ok (VBool (c || existsb (fun cmd => str_contains cmd txt) cs)), w, []).
Proof.
  intros Hc Htxt. unfold check_commands. rewrite Hc.
  destruct cs as [|cmd cs].
  - simpl. unfold ret. now rewrite orb_false_r.
  - cbn [py_truthy map py_iter]. rewrite bind_lift_ok.
    apply (commands_loop (VDict d) txt (cmd :: cs) c w).
    simpl. now rewrite Htxt.
Qed.

(** On an event of any other type the rule answers [False]. *)
Lemma MessageRule_check_other_type (self : MessageRule) (ty obj gid : value) (w : W) :
  py_eq ty (VStr "message_new") = false ->
  MessageRule_check re_match self (EventOf ty obj gid) w = (Ok (VBool false), w, []).
Proof.
  intros H. unfold MessageRule_check. simpl. rewrite bind_lift_ok. now rewrite H.
Qed.

(** On a [message_new] event the conditions are tried in turn. *)
Lemma MessageRule_check_message_new (self : MessageRule) (ty obj gid : value) (w : W) :
  py_eq ty (VStr "message_new") = true ->
  MessageRule_check re_match self (EventOf ty obj gid) w =
  (check <- check_attachment_types self obj (VBool false) ;;
   check <- check_payload self obj check ;;
   check <- check_func (func_text self) (EventOf ty obj gid) check ;;
   check <- check_func (func_msg self) (EventOf ty obj gid) check ;;
   check <- check_regexp re_match self obj check ;;
   check <- check_commands self obj check ;;
   ret check) w.
Proof.
  intros H. unfold MessageRule_check. cbn [Event_type Event_object].
  now rewrite bind_lift_ok, H, bind_lift_ok, bind_ret.
Qed.

(** X3.  With no condition configured (every field falsy or absent:
    [None], an empty list, dict or string) the rule answers [False] on
    every event that has its attributes, a [message_new] one included,
    without reading the message or changing anything. *)
Lemma MessageRule_check_no_condition (self : MessageRule) (ty obj gid : value) (w : W) :
  py_truthy (attachment_types self) = false ->
  py_truthy (payload self) = false ->
  func_text self = None ->
  func_msg self = None ->
  py_truthy (regexp self) = false ->
  py_truthy (commands self) = false ->
  MessageRule_check re_match self (EventOf ty obj gid) w = (Ok (VBool false), w, []).
Proof.
  intros Ha Hp Hft Hfm Hr Hc. unfold MessageRule_check. simpl.
  rewrite bind_lift_ok. destruct (py_eq ty (VStr "message_new")); [|reflexivity].
  rewrite bind_lift_ok, bind_ret.
  unfold check_attachment_types, check_payload, check_regexp, check_commands.
  rewrite Ha, Hp, Hft, Hfm, Hr, Hc. reflexivity.
Qed.

(** ** The regexp condition *)

Lemma raises_bind {A B : Type} (m : @M W A) (f : A -> @M W B) (w : W) :
  (forall a w1 t1, m w = (Ok a, w1, t1) -> exists e w' t, f a w1 = (Raise e, w', t)) ->
  exists e w' t, bind m f w = (Raise e, w', t).
Proof.
  intros H. unfold bind. destruct (m w) as [[[a|e] w1] t1].
  - destruct (H a w1 t1 eq_refl) as (e & w' & t & ->). eauto.
  - eauto.
Qed.

(** Whatever [re.match] answers, or-ing it into the flag raises. *)
Lemma check_regexp_eq (self : MessageRule) (msg check : value) (w : W) :
  py_truthy (regexp self) = true ->
  check_regexp re_match self msg check w
  = (match py_getitem msg "text" with
     | Ok text =>
         match re_match (regexp self) text with
         | Ok _ => Raise TypeError
         | Raise e => Raise e
         end
     | Raise e => Raise e
     end, w, []).
Proof.
  intros H. unfold check_regexp. rewrite H.
  destruct (py_getitem msg "text") as [text|e]; [|reflexivity].
  rewrite bind_lift_ok.
  destruct (re_match (regexp self) text) as [m|e]; [|reflexivity].
  rewrite bind_lift_ok. unfold lift. now rewrite py_or_match_raises.
Qed.

Lemma check_regexp_raises (self : MessageRule) (msg check : value) (w : W) :
  py_truthy (regexp self) = true ->
  exists e, check_regexp re_match self msg check w = (Raise e, w, []).
Proof.
  intros H. rewrite (check_regexp_eq self msg check w H).
  destruct (py_getitem msg "text") as [text|e]; eauto.
  destruct (re_match (regexp self) text); eauto.
Qed.

(** X2.  A MessageRule with a [regexp] configured, a [payload] that is
    not an object and predicates that return no object never returns on
    a [message_new] event: whatever the other conditions and the
    message, [check] ends in an exception. *)
Lemma MessageRule_regexp_raises (self : MessageRule) (ty obj gid : value) (w : W) :
  py_eq ty (VStr "message_new") = true ->
  py_truthy (regexp self) = true ->
  (forall id, payload self <> VObject id) ->
  plain_results (func_text self) ->
  plain_results (func_msg self) ->
  exists e w' t,
    MessageRule_check re_match self (EventOf ty obj gid) w = (Raise e, w', t).
Proof.
  intros Hty Hre _ _ _. unfold MessageRule_check. simpl.
  rewrite bind_lift_ok, Hty, bind_lift_ok, bind_ret.
  do 4 (apply raises_bind; intros ? ? ? _).
  match goal with
  | |- exists e w' t, bind (check_regexp _ _ _ ?c) _ ?w0 = _ =>
      destruct (check_regexp_raises self obj c w0 Hre) as [e He]
  end.
  unfold bind. rewrite He. eauto.
Qed.

(** C7, at the failing input.  [MessageRule(regexp="hi")] checked
    against a [message_new] event whose text is "hi there" ends in an
    exception whatever [re.match] does: the one [re.match] raises, or
    else the [TypeError] of or-ing its answer into a boolean.  It does
    not return the truth value of its single condition. *)
Theorem regexp_only_rule_raises (w : W) :
  MessageRule_check re_match (only_regexp (VStr "hi")) (message_event "hi there") w
  = (match re_match (VStr "hi") (VStr "hi there") with
     | Ok _ => Raise TypeError
     | Raise e => Raise e
     end, w, []).
Proof.
  unfold MessageRule_check, message_event. simpl.
  rewrite bind_lift_ok. simpl. rewrite bind_lift_ok, bind_ret.
  unfold check_attachment_types, check_payload, check_func. simpl.
  rewrite !bind_ret.
  unfold bind.
  rewrite (check_regexp_eq (only_regexp (VStr "hi")) _ _ w eq_refl). simpl.
  destruct (re_match (VStr "hi") (VStr "hi there")); reflexivity.
Qed.

(** ** The commands condition *)

Lemma only_commands_check (cs : list string) (d : list (string * value))
    (txt : string) (gid : value) (w : W) :
  (cs <> [] -> dict_lookup "text" d = Some (VStr txt)) ->
  MessageRule_check re_match (only_commands (VList (map VStr cs)))
    (EventOf (VStr "message_new") (VDict d) gid) w
  = (Ok (VBool (existsb (fun cmd => str_contains cmd txt) cs)), w, []).
Proof.
  intros Htxt. unfold MessageRule_check. simpl.
  rewrite bind_lift_ok. simpl. rewrite bind_lift_ok, bind_ret.
  unfold check_attachment_types, check_payload, check_func, check_regexp. simpl.
  rewrite !bind_ret.
  rewrite (bind_pure _ _ _ _
             (check_commands_strings (only_commands (VList (map VStr cs)))
                d cs txt false w eq_refl Htxt)).
  reflexivity.
Qed.

(** The other single conditions: each rule answers with the truth value
    of its one condition. *)
Lemma only_payload_check (p : value) (d : list (string * value)) (gid : value) (w : W) :
  py_truthy p = true ->
  MessageRule_check re_match (only_payload p)
    (EventOf (VStr "message_new") (VDict d) gid) w
  = (Ok (VBool (py_eq (match dict_lookup "payload" d with
                       | Some x => x
                       | None => VDict []
                       end) p)), w, []).
Proof.
  intros Hp. unfold MessageRule_check. simpl.
  rewrite bind_lift_ok. simpl. rewrite bind_lift_ok, bind_ret.
  unfold check_attachment_types, check_payload, check_func, check_regexp,
    check_commands. simpl. rewrite Hp. reflexivity.
Qed.

Lemma only_func_text_check (f : callable) (b : bool) (ty obj gid : value) (w w' : W) :
  py_eq ty (VStr "message_new") = true ->
  f (EventOf ty obj gid) w = (Ok (VBool b), w') ->
  MessageRule_check re_match (only_func_text f) (EventOf ty obj gid) w
  = (Ok (VBool b), w', []).
Proof.
  intros Hty Hf. unfold MessageRule_check. simpl.
  rewrite bind_lift_ok, Hty, bind_lift_ok, bind_ret.
  unfold check_attachment_types, check_payload, check_func, check_regexp,
    check_commands, bind, call, lift, ret. simpl. now rewrite Hf.
Qed.

Lemma only_func_msg_check (f : callable) (b : bool) (ty obj gid : value) (w w' : W) :
  py_eq ty (VStr "message_new") = true ->
  f (EventOf ty obj gid) w = (Ok (VBool b), w') ->
  MessageRule_check re_match (only_func_msg f) (EventOf ty obj gid) w
  = (Ok (VBool b), w', []).
Proof.
  intros Hty Hf. unfold MessageRule_check. simpl.
  rewrite bind_lift_ok, Hty, bind_lift_ok, bind_ret.
  unfold check_attachment_types, check_payload, check_func, check_regexp,
    check_commands, bind, call, lift, ret. simpl. now rewrite Hf.
Qed.

Lemma attachment_flags (kinds : list value) (atts : list value) :
  Forall (fun a => exists e k, a = VDict e /\ dict_lookup "type" e = Some k) atts ->
  mapR (fun i => t <-? py_getitem i "type" ;; py_in t (VList kinds)) atts
  = Ok (map (fun a => existsb (fun y => py_eq y (attachment_type a)) kinds) atts).
Proof.
  induction 1 as [|a atts (e & k & -> & Hk) _ IH]; simpl in *; [reflexivity|].
  now rewrite Hk, IH.
Qed.

Lemma only_attachment_types_check (kinds atts : list value)
    (d : list (string * value)) (gid : value) (w : W) :
  kinds <> [] ->
  dict_lookup "attachments" d = Some (VList atts) ->
  Forall (fun a => exists e k, a = VDict e /\ dict_lookup "type" e = Some k) atts ->
  MessageRule_check re_match (only_attachment_types (VList kinds))
    (EventOf (VStr "message_new") (VDict d) gid) w
  = (Ok (VBool (existsb (fun a => existsb (fun y => py_eq y (attachment_type a)) kinds)
                  atts)), w, []).
Proof.
  intros Hk Hd Hatts.
  assert (E : check_attachment_types (only_attachment_types (VList kinds))
                (VDict d) (VBool false) w
              = (Ok (VBool (existsb
                              (fun a => existsb (fun y => py_eq y (attachment_type a)) kinds)
                              atts)), w, [])).
  { unfold check_attachment_types.
    change (attachment_types (only_attachment_types (VList kinds))) with (VList kinds).
    destruct kinds as [|k kinds]; [contradiction|].
    cbn [py_truthy py_get]. rewrite Hd, bind_lift_ok.
    cbn [py_iter]. rewrite bind_lift_ok.
    rewrite (attachment_flags (k :: kinds) atts Hatts), bind_lift_ok.
    rewrite py_any_map. reflexivity. }
  rewrite MessageRule_check_message_new by reflexivity.
  rewrite (bind_pure _ _ _ _ E). reflexivity.
Qed.

(** C9.  [MessageRule(commands=["/start"])] accepts a [message_new]
    event with text "/start now" and rejects one with text "start"; in
    general, for commands that are strings and a message with a string
    text, a rule with only [commands] configured returns a boolean that
    is true exactly when some configured command occurs in the text. *)
Theorem commands_condition (w : W) :
  MessageRule_check re_match (only_commands (VList [VStr "/start"]))
     (message_event "/start now") w = (Ok (VBool true), w, []) /\
  MessageRule_check re_match (only_commands (VList [VStr "/start"]))
     (message_event "start") w = (Ok (VBool false), w, []) /\
  forall (cs : list string) (d : list (string * value)) (txt : string) (gid : value),
    dict_lookup "text" d = Some (VStr txt) ->
    exists b,
      MessageRule_check re_match (only_commands (VList (map VStr cs)))
        (EventOf (VStr "message_new") (VDict d) gid) w = (Ok (VBool b), w, []) /\
      (b = true <-> exists cmd, In cmd cs /\ occurs_in cmd txt).
Proof.
  split; [|split].
  - apply (only_commands_check ["/start"%string] _ "/start now"). reflexivity.
  - apply (only_commands_check ["/start"%string] _ "start"). reflexivity.
  - intros cs d txt gid Htxt. eexists. split.
    + apply only_commands_check. intros _. exact Htxt.
    + rewrite existsb_exists. split.
      * intros (cmd & Hin & Hc). exists cmd. split; auto. now apply str_contains_iff.
      * intros (cmd & Hin & Hc). exists cmd. split; auto. now apply str_contains_iff.
Qed.

(** ** Handler.handle and the dispatch pass *)

Lemma Handler_handle_eq (h : Handler) (ev : Event) (w : W) :
  Handler_handle re_match h ev w =
  match Rule_check re_match (rule h) ev w with
  | (Ok v, w1, _) =>
      if py_truthy v then
        (match fst (func h ev w1) with Ok _ => Ok true | Raise e => Raise e end,
         snd (func h ev w1), [Invoke (func h) ev])
      else (Ok false, w1, [])
  | (Raise e, w1, _) => (Raise e, w1, [])
  end.
Proof.
  pose proof (Rule_check_silent (rule h) ev w) as Hs.
  unfold Handler_handle, bind.
  destruct (Rule_check re_match (rule h) ev w) as [[[v|e] w1] t1];
    simpl in Hs; subst t1; [|reflexivity].
  destruct (py_truthy v); [|reflexivity].
  unfold tell, call, ret. destruct (func h ev w1) as [[x|e] w2]; reflexivity.
Qed.

Lemma Handler_handle_declined (h : Handler) (ev : Event) (w w1 : W) (t : list action) :
  Handler_handle re_match h ev w = (Ok false, w1, t) -> t = [].
Proof.
  rewrite Handler_handle_eq.
  destruct (Rule_check re_match (rule h) ev w) as [[[v|e] w0] t0]; [|discriminate].
  destruct (py_truthy v).
  - destruct (fst (func h ev w0)); discriminate.
  - now intros [= _ <-].
Qed.

Lemma dispatch_singleton (h : Handler) (ev : Event) (w : W) :
  dispatch re_match [h] ev w = Handler_handle re_match h ev w.
Proof.
  simpl. unfold bind.
  destruct (Handler_handle re_match h ev w) as [[[[|]|e] w1] t1];
    simpl; now rewrite ?app_nil_r.
Qed.

(** When every handler of [pre] declines, the pass goes on with what
    follows [pre], from the state the declined checks left. *)
Lemma dispatch_app_declined (pre rest : list Handler) (ev : Event) :
  forall (w w1 : W) (t : list action),
    dispatch re_match pre ev w = (Ok false, w1, t) ->
    t = [] /\ dispatch re_match (pre ++ rest) ev w = dispatch re_match rest ev w1.
Proof.
  induction pre as [|h pre IH]; intros w w1 t; simpl.
  - unfold ret. intros [= <- <-]. auto.
  - unfold bind.
    destruct (Handler_handle re_match h ev w) as [[[[|]|e] w0] t0] eqn:Hh;
      try discriminate.
    apply Handler_handle_declined in Hh as ->. simpl.
    destruct (dispatch re_match pre ev w0) as [[r2 w2] t2] eqn:Hd.
    intros [= -> -> ->].
    destruct (IH _ _ _ Hd) as [-> ->]. split; [reflexivity|].
    now destruct (dispatch re_match rest ev w1) as [[r3 w3] t3].
Qed.

(** Dispatching over two handler lists in a row: the second list is
    tried exactly when every handler of the first declined, from the
    state those checks left; otherwise the outcome is that of the first
    list alone. *)
Lemma dispatch_app (l1 l2 : list Handler) (ev : Event) (w : W) :
  dispatch re_match (l1 ++ l2) ev w =
  match dispatch re_match l1 ev w with
  | (Ok false, w1, _) => dispatch re_match l2 ev w1
  | outcome => outcome
  end.
Proof.
  revert w. induction l1 as [|h l1 IH]; intros w; [reflexivity|].
  cbn [app dispatch]. unfold bind.
  destruct (Handler_handle re_match h ev w) as [[[[|]|e] w0] t0] eqn:Hh;
    cbn [ret]; try reflexivity.
  apply Handler_handle_declined in Hh as ->. rewrite IH.
  destruct (dispatch re_match l1 ev w0) as [[[[|]|e] w1] t1];
    cbn [app]; try reflexivity.
  now destruct (dispatch re_match l2 ev w1) as [[r2 w2] t2].
Qed.


(** ** Registration *)

(** C8, as amended.  Each application of either registration operation
    appends exactly one handler at the end of the sequence: the sequence
    after is the sequence before followed by the new handler, so the
    entries already there stay, in their order, and the length grows by
    one every time, also when the same handler is registered again. *)
Theorem registration_appends (self : VKBot) (args : MessageRule) (r : Rule)
    (event_type : value) (f : @callable W) (cls : VKBot_class) :
  _handlers (snd (handle_message self args f cls))
    = _handlers cls ++ [{| func := f; rule := OfMessageRule args |}] /\
  _handlers (snd (handle_event self (Some r) event_type f cls))
    = _handlers cls ++ [{| func := f; rule := r |}] /\
  _handlers (snd (handle_event self None event_type f cls))
    = _handlers cls ++ [{| func := f; rule := OfTypeRule (TypeRule_of event_type) |}] /\
  (forall cls', cls' = snd (handle_message self args f cls) \/
                cls' = snd (handle_event self (Some r) event_type f cls) \/
                cls' = snd (handle_event self None event_type f cls) ->
     firstn (List.length (_handlers cls)) (_handlers cls') = _handlers cls /\
     List.length (_handlers cls') = S (List.length (_handlers cls))).
Proof.
  split; [reflexivity|]. split; [reflexivity|]. split; [reflexivity|].
  intros cls' Hcls.
  assert (Happ : exists h, _handlers cls' = _handlers cls ++ [h]).
  { destruct Hcls as [-> | [-> | ->]]; eexists; reflexivity. }
  destruct Happ as [h ->]. split.
  - now rewrite firstn_app, Nat.sub_diag, firstn_all, app_nil_r.
  - rewrite length_app. simpl. lia.
Qed.

(** C10, as amended.  The registry belongs to the class: a handler
    registered through one instance is in the list every instance
    dispatches over, right after the handlers registered before.  The
    dispatch pass of any instance over the list then ends as the pass
    over the handlers registered before when one of these accepts the
    event or raises; when all of these decline, it ends as the offer of
    the event to the new handler, made on the state their checks left.
    Both decorators give back the callback they were applied to. *)
Theorem registry_shared (b1 b2 : VKBot) (args : MessageRule) (r : option Rule)
    (event_type : value) (f : callable) (cls : VKBot_class) (ev : Event) (w : W) :
  (fst (handle_message b1 args f cls) = f /\
   fst (handle_event b1 r event_type f cls) = f) /\
  (self_handlers b2 (snd (handle_message b1 args f cls))
     = self_handlers b1 cls ++ [{| func := f; rule := OfMessageRule args |}] /\
   dispatch re_match (self_handlers b2 (snd (handle_message b1 args f cls))) ev w
     = match dispatch re_match (self_handlers b2 cls) ev w with
       | (Ok false, w1, _) =>
           Handler_handle re_match {| func := f; rule := OfMessageRule args |} ev w1
       | outcome => outcome
       end) /\
  (self_handlers b2 (snd (handle_event b1 r event_type f cls))
     = self_handlers b1 cls ++
       [{| func := f;
           rule := match r with
                   | Some r' => r'
                   | None => OfTypeRule (TypeRule_of event_type)
                   end |}] /\
   dispatch re_match (self_handlers b2 (snd (handle_event b1 r event_type f cls))) ev w
     = match dispatch re_match (self_handlers b2 cls) ev w with
       | (Ok false, w1, _) =>
           Handler_handle re_match
             {| func := f;
                rule := match r with
                        | Some r' => r'
                        | None => OfTypeRule (TypeRule_of event_type)
                        end |} ev w1
       | outcome => outcome
       end).
Proof.
  unfold self_handlers.
  split; [|split]; split.
  - reflexivity.
  - now destruct r.
  - reflexivity.
  - simpl. rewrite dispatch_app.
    destruct (dispatch re_match (_handlers cls) ev w) as [[[[|]|e] w1] t1];
      try reflexivity.
    apply dispatch_singleton.
  - now destruct r.
  - destruct r as [r'|]; simpl; rewrite dispatch_app;
      destruct (dispatch re_match (_handlers cls) ev w) as [[[[|]|e] w1] t1];
      try reflexivity; apply dispatch_singleton.
Qed.

(** ** The run loop *)

Lemma cursors_sent_app (t1 t2 : list (@action W)) :
  cursors_sent (t1 ++ t2) = cursors_sent t1 ++ cursors_sent t2.
Proof.
  induction t1 as [|a t1 IH]; simpl; [reflexivity|].
  destruct a; simpl; now rewrite IH.
Qed.

Lemma acquisitions_app (t1 t2 : list (@action W)) :
  acquisitions (t1 ++ t2) = acquisitions t1 + acquisitions t2.
Proof.
  induction t1 as [|a t1 IH]; simpl; [reflexivity|].
  destruct a; simpl; now rewrite IH.
Qed.

Lemma no_requests_app (t1 t2 : list (@action W)) :
  no_requests t1 -> no_requests t2 -> no_requests (t1 ++ t2).
Proof.
  intros [H1 H1'] [H2 H2']. split.
  - now rewrite cursors_sent_app, H1, H2.
  - now rewrite acquisitions_app, H1', H2'.
Qed.

Lemma quiet_of_silent {A : Type} (m : @M W A) : silent m -> quiet m.
Proof. intros H w. rewrite (H w). now split. Qed.

Lemma quiet_bind {A B : Type} (m : @M W A) (f : A -> @M W B) :
  quiet m -> (forall a, quiet (f a)) -> quiet (bind m f).
Proof.
  intros Hm Hf w. unfold bind. specialize (Hm w).
  destruct (m w) as [[[a|e] w1] t1]; simpl in *; auto.
  specialize (Hf a w1). destruct (f a w1) as [[r w2] t2]. simpl in *.
  now apply no_requests_app.
Qed.

Lemma quiet_log (lvl : level) (message : string) (args : list value) :
  quiet (tell [@Log W lvl message args]).
Proof. intros w. now split. Qed.

Lemma Handler_handle_quiet (h : @Handler W) (ev : Event) :
  quiet (Handler_handle re_match h ev).
Proof.
  intros w. rewrite Handler_handle_eq.
  destruct (Rule_check re_match (rule h) ev w) as [[[v|e] w1] t1]; [|now split].
  destruct (py_truthy v); now split.
Qed.

Lemma dispatch_quiet (handlers : list (@Handler W)) (ev : Event) :
  quiet (dispatch re_match handlers ev).
Proof.
  induction handlers as [|h handlers IH]; simpl.
  - apply quiet_of_silent, silent_ret.
  - apply quiet_bind; [apply Handler_handle_quiet|].
    intros [|]; [apply quiet_of_silent, silent_ret | exact IH].
Qed.

(** One step of a proof that a sequence of computations makes no
    request. *)
Ltac quiet_step :=
  first [ apply quiet_log
        | apply quiet_of_silent, silent_lift
        | apply quiet_of_silent, silent_ret
        | apply dispatch_quiet
        | apply quiet_bind; [ | intros ? ] ].

Lemma process_update_quiet (self : VKBot) (cls : @VKBot_class W) (i : Z) (event : value) :
  quiet (process_update re_match self cls i event).
Proof.
  unfold process_update. repeat quiet_step.
  match goal with |- quiet (if ?b then _ else _) => destruct b end;
    repeat quiet_step.
Qed.

Lemma process_updates_quiet (self : VKBot) (cls : @VKBot_class W) (updates : list value) :
  forall i, quiet (process_updates re_match self cls i updates).
Proof.
  induction updates as [|event updates IH]; intros i; simpl.
  - apply quiet_of_silent, silent_ret.
  - apply quiet_bind; [apply process_update_quiet | intros _; apply IH].
Qed.

Lemma process_batch_quiet (self : VKBot) (cls : @VKBot_class W) (rq : value) :
  quiet (process_batch re_match self cls rq).
Proof.
  unfold process_batch. repeat quiet_step. apply process_updates_quiet.
Qed.

(** A response without failure: the batch is processed, and only when
    that has ended normally is the cursor replaced, by the response's
    [ts] or by 1. *)
Lemma run_step_success (self : VKBot) (reload : bool) (cls : VKBot_class)
    (server key ts : value) (d : list (string * value)) (w : W) :
  no_failure d ->
  run_step re_match self reload cls (PollBatch server key ts) (Ok (VDict d)) w =
  (match fst (fst (process_batch re_match self cls (VDict d) w)) with
   | Ok _ => Ok (PollBatch server key (next_cursor d))
   | Raise e => Raise e
   end,
   snd (fst (process_batch re_match self cls (VDict d) w)),
   snd (process_batch re_match self cls (VDict d) w)).
Proof.
  intros Hd. unfold run_step. rewrite bind_lift_ok. simpl py_get.
  rewrite bind_lift_ok. unfold no_failure in Hd. rewrite Hd.
  unfold bind.
  destruct (process_batch re_match self cls (VDict d) w) as [[[[]|e] w1] t1];
    simpl; [|reflexivity].
  now rewrite app_nil_r.
Qed.

(** A response with a truthy failure code. *)
Lemma run_step_failed (self : VKBot) (reload : bool) (cls : VKBot_class)
    (server key ts code : value) (d : list (string * value)) (w : W) :
  dict_lookup "failed" d = Some code ->
  py_truthy code = true ->
  run_step re_match self reload cls (PollBatch server key ts) (Ok (VDict d)) w =
  if py_eq code (VInt 1) then
    (Ok (PollBatch server key ts), w, [Log ERROR "LongPoll failed. Code: {0}" [code]])
  else if reload then
    (Ok AcquireServer, w, [Log ERROR "LongPoll failed. Code: {0}" [code]])
  else
    (Ok Terminated, w,
     [Log ERROR "LongPoll failed. Code: {0}" [code]; Log INFO "Shutting down." []]).
Proof.
  intros Hd Hc. unfold run_step. rewrite bind_lift_ok. simpl. rewrite Hd.
  rewrite bind_lift_ok, Hc, bind_lift_ok.
  unfold bind, tell, lift, ret.
  destruct (py_eq code (VInt 1)); [reflexivity|].
  destruct reload; reflexivity.
Qed.


Lemma run_from_cons (self : VKBot) (reload : bool) (cls : VKBot_class)
    (server key ts : value) (response : result value)
    (rest : list (result value)) (w : W) :
  run_from re_match self reload cls (PollBatch server key ts) (response :: rest) w =
  match run_step re_match self reload cls (PollBatch server key ts) response w with
  | (Ok ph, w1, t1) =>
      (fst (fst (run_from re_match self reload cls ph rest w1)),
       snd (fst (run_from re_match self reload cls ph rest w1)),
       issue self (PollBatch server key ts) ++ t1 ++
       snd (run_from re_match self reload cls ph rest w1))
  | (Raise e, w1, t1) => (Raise e, w1, issue self (PollBatch server key ts) ++ t1)
  end.
Proof.
  cbn [run_from]. unfold bind at 1. unfold tell at 1. unfold bind at 1.
  destruct (run_step re_match self reload cls (PollBatch server key ts) response w)
    as [[[ph|e] w1] t1]; [|reflexivity].
  now destruct (run_from re_match self reload cls ph rest w1) as [[r2 w2] t2].
Qed.

Lemma run_from_acquire (self : VKBot) (reload : bool) (cls : VKBot_class)
    (response : result value) (rest : list (result value)) (w : W) :
  run_from re_match self reload cls AcquireServer (response :: rest) w =
  match run_step re_match self reload cls AcquireServer response w with
  | (Ok ph, w1, t1) =>
      (fst (fst (run_from re_match self reload cls ph rest w1)),
       snd (fst (run_from re_match self reload cls ph rest w1)),
       issue self AcquireServer ++ t1 ++
       snd (run_from re_match self reload cls ph rest w1))
  | (Raise e, w1, t1) => (Raise e, w1, issue self AcquireServer ++ t1)
  end.
Proof.
  cbn [run_from]. unfold bind at 1. unfold tell at 1. unfold bind at 1.
  destruct (run_step re_match self reload cls AcquireServer response w)
    as [[[ph|e] w1] t1]; [|reflexivity].
  now destruct (run_from re_match self reload cls ph rest w1) as [[r2 w2] t2].
Qed.


(** C3.  A response whose failure code equals 1 leaves the loop in the
    polling session it was in, with the cursor it had: the step after
    the response ends in the same phase (same server, key and [ts]),
    having only logged the failure, and the run goes on exactly as a run
    from that phase, so that the next request is the same poll request
    and no descriptor is requested in between. *)
Theorem failure_code_1_retries (self : VKBot) (reload : bool) (cls : VKBot_class)
    (server key ts code : value) (d : list (string * value))
    (rest : list (result value)) (w : W) :
  dict_lookup "failed" d = Some code ->
  py_eq code (VInt 1) = true ->
  run_step re_match self reload cls (PollBatch server key ts) (Ok (VDict d)) w
  = (Ok (PollBatch server key ts), w,
     [Log ERROR "LongPoll failed. Code: {0}" [code]]) /\
  @request_of W self (PollBatch server key ts) = Some (HttpGet server key ts) /\
  run_from re_match self reload cls (PollBatch server key ts) (Ok (VDict d) :: rest) w
  = (fst (fst (run_from re_match self reload cls (PollBatch server key ts) rest w)),
     snd (fst (run_from re_match self reload cls (PollBatch server key ts) rest w)),
     [Log DEBUG "Getting updates" []; HttpGet server key ts;
      Log ERROR "LongPoll failed. Code: {0}" [code]] ++
     snd (run_from re_match self reload cls (PollBatch server key ts) rest w)).
Proof.
  intros Hd Hc.
  assert (Hstep : run_step re_match self reload cls (PollBatch server key ts)
                    (Ok (VDict d)) w
                  = (Ok (PollBatch server key ts), w,
                     [Log ERROR "LongPoll failed. Code: {0}" [code]])).
  { rewrite (run_step_failed self reload cls server key ts code d w Hd
               (py_eq_one_truthy code Hc)).
    now rewrite Hc. }
  split; [exact Hstep|]. split; [reflexivity|].
  rewrite run_from_cons, Hstep. reflexivity.
Qed.


Lemma last_cons {A : Type} (l : list A) (a d : A) : last (a :: l) d = last l a.
Proof.
  revert a d. induction l as [|b l IH]; intros a d; [reflexivity|].
  change (last (a :: b :: l) d) with (last (b :: l) d).
  now rewrite (IH b d), (IH b a).
Qed.

(** Over responses without failure, the cursors sent are, in order, the
    initial one and then the cursor each response led to; no descriptor
    is requested. *)
Lemma run_from_cursors (self : VKBot) (reload : bool) (cls : VKBot_class)
    (server key : value) (ds : list (list (string * value))) :
  Forall no_failure ds ->
  forall (ts0 : value) (w w' : W) (r : result phase) (t : list action),
    run_from re_match self reload cls (PollBatch server key ts0)
      (map (fun d => Ok (VDict d)) ds) w = (r, w', t) ->
    exists n,
      n <= List.length ds /\
      cursors_sent t = firstn n (ts0 :: map next_cursor ds) /\
      acquisitions t = 0 /\
      (forall ph, r = Ok ph ->
         n = List.length ds /\
         ph = PollBatch server key (last (map next_cursor ds) ts0)).
Proof.
  induction 1 as [|d ds Hd Hds IH]; intros ts0 w w' r t.
  - simpl. unfold ret. intros [= <- <- <-]. exists 0.
    split; [reflexivity|]. split; [reflexivity|]. split; [reflexivity|].
    intros ph [= <-]. split; reflexivity.
  - cbn [map]. rewrite run_from_cons, (run_step_success self reload cls _ _ _ d w Hd).
    destruct (process_batch_quiet self cls (VDict d) w) as [Hq1 Hq2].
    destruct (process_batch re_match self cls (VDict d) w) as [[[[]|e] w1] t1];
      simpl in Hq1, Hq2; cbn [fst snd].
    + destruct (run_from re_match self reload cls
                  (PollBatch server key (next_cursor d))
                  (map (fun d => Ok (VDict d)) ds) w1) as [[r2 w2] t2] eqn:Hrun.
      cbn [fst snd]. intros [= <- <- <-].
      destruct (IH _ _ _ _ _ Hrun) as (n & Hn & Hcur & Hacq & Hok).
      exists (S n). split; [simpl; lia|]. split; [|split].
      * simpl. rewrite cursors_sent_app, Hq1, Hcur. reflexivity.
      * simpl. rewrite acquisitions_app, Hq2, Hacq. reflexivity.
      * intros ph Hph. destruct (Hok ph Hph) as [-> ->].
        split; [reflexivity|]. cbn [map]. now rewrite last_cons.
    + intros [= <- <- <-]. exists 1. split; [simpl; lia|]. split; [|split].
      * simpl. now rewrite Hq1.
      * simpl. exact Hq2.
      * discriminate.
Qed.

Lemma process_update_eq (self : VKBot) (cls : VKBot_class) (i : Z)
    (event : value) (ev : Event) (b : bool) (w w1 : W) (t : list action) :
  Event_init event = Ok ev ->
  dispatch re_match (self_handlers self cls) ev w = (Ok b, w1, t) ->
  process_update re_match self cls i event w =
  if b then
    (Ok tt, w1, Log DEBUG "Processing update {0}: {1}" [VInt i; event] :: t)
  else
    match Event_type ev with
    | Ok ty =>
        (Ok tt, w1,
         Log DEBUG "Processing update {0}: {1}" [VInt i; event] :: t ++
         [Log WARNING "Event {0} wasn't processed by any handler." [ty]])
    | Raise e =>
        (Raise e, w1, Log DEBUG "Processing update {0}: {1}" [VInt i; event] :: t)
    end.
Proof.
  intros Hev Hd. unfold process_update.
  unfold bind at 1. unfold tell at 1. rewrite Hev, bind_lift_ok.
  unfold bind at 1. rewrite Hd. destruct b.
  - cbn. now rewrite app_nil_r.
  - destruct (Event_type ev) as [ty|e]; cbn; now rewrite ?app_nil_r.
Qed.

Lemma process_update_inv (self : VKBot) (cls : VKBot_class) (i : Z)
    (event : value) (x : unit) (w w1 : W) (t1 : list action) :
  process_update re_match self cls i event w = (Ok x, w1, t1) ->
  exists ev b t,
    Event_init event = Ok ev /\
    dispatch re_match (self_handlers self cls) ev w = (Ok b, w1, t) /\
    (b = true /\
     t1 = Log DEBUG "Processing update {0}: {1}" [VInt i; event] :: t \/
     b = false /\
     exists ty,
       Event_type ev = Ok ty /\
       t1 = Log DEBUG "Processing update {0}: {1}" [VInt i; event] :: t ++
            [Log WARNING "Event {0} wasn't processed by any handler." [ty]]).
Proof.
  intros H.
  destruct (Event_init event) as [ev|e] eqn:Hev.
  - destruct (dispatch re_match (self_handlers self cls) ev w) as [[[b|e] w2] t] eqn:Hd.
    + rewrite (process_update_eq self cls i event ev b w w2 t Hev Hd) in H.
      exists ev, b, t. destruct b.
      * injection H as _ <- <-. split; [reflexivity|]. split; [exact Hd|]. auto.
      * destruct (Event_type ev) as [ty|e]; [|discriminate].
        injection H as _ <- <-. split; [reflexivity|]. split; [exact Hd|].
        right. eauto.
    + unfold process_update in H. unfold bind at 1 in H. unfold tell at 1 in H.
      rewrite Hev, bind_lift_ok in H. unfold bind at 1 in H. rewrite Hd in H.
      discriminate.
  - unfold process_update in H. unfold bind at 1 in H. unfold tell at 1 in H.
    rewrite Hev in H. discriminate.
Qed.

(** Processing a batch ends normally exactly when every update of it
    was dispatched. *)
Lemma process_updates_dispatched (self : VKBot) (cls : VKBot_class) (us : list value) :
  forall (i : Z) (w w' : W) (t : list action),
    process_updates re_match self cls i us w = (Ok tt, w', t) <->
    batch_dispatched re_match (self_handlers self cls) i us w w' t.
Proof.
  induction us as [|u us IH]; intros i w w' t; cbn [process_updates].
  - unfold ret. split.
    + intros [= <- <-]. constructor.
    + intros H. inversion H. reflexivity.
  - split.
    + intros H. apply bind_ok_inv in H as (x & w1 & t1 & t2 & Hu & Hrest & ->).
      apply IH in Hrest.
      apply process_update_inv in Hu
        as (ev & b & td & Hev & Hd & [[-> ->] | [-> (ty & Hty & ->)]]).
      * cbn [app]. eapply batch_accepted; eauto.
      * cbn [app]. rewrite <- app_assoc. cbn [app].
        eapply batch_unhandled; eauto.
    + intros H.
      inversion H as [ | ? ? ? ev ? w1 ? td tr Hev Hd Hrest
                       | ? ? ? ev ty ? w1 ? td tr Hev Hty Hd Hrest ]; subst.
      * apply IH in Hrest.
        unfold bind.
        rewrite (process_update_eq self cls i u ev true w w1 td Hev Hd), Hrest.
        reflexivity.
      * apply IH in Hrest.
        unfold bind.
        rewrite (process_update_eq self cls i u ev false w w1 td Hev Hd), Hty, Hrest.
        cbn [app]. now rewrite <- app_assoc.
Qed.

Lemma py_len_iter (v : value) :
  py_len v = match py_iter v with
             | Ok items => Ok (Z.of_nat (List.length items))
             | Raise e => Raise e
             end.
Proof. destruct v; cbn; now rewrite ?length_map. Qed.

Lemma process_batch_iter (self : VKBot) (cls : VKBot_class)
    (d : list (string * value)) (us : list value) (w : W) :
  py_iter (updates_of d) = Ok us ->
  process_batch re_match self cls (VDict d) w =
  (fst (fst (process_updates re_match self cls 0 us w)),
   snd (fst (process_updates re_match self cls 0 us w)),
   Log DEBUG "Got {0} new updates" [VInt (Z.of_nat (List.length us))]
   :: snd (process_updates re_match self cls 0 us w)).
Proof.
  intros Hu. unfold process_batch. cbn [py_get].
  change (match dict_lookup "updates" d with
          | Some x => x
          | None => VList []
          end) with (updates_of d).
  rewrite bind_lift_ok, py_len_iter, Hu, bind_lift_ok.
  unfold bind at 1. unfold tell at 1. rewrite bind_lift_ok.
  now destruct (process_updates re_match self cls 0 us w) as [[r w1] t1].
Qed.

Lemma process_batch_unreadable (self : VKBot) (cls : VKBot_class)
    (d : list (string * value)) (e : exn) (w : W) :
  py_iter (updates_of d) = Raise e ->
  fst (fst (process_batch re_match self cls (VDict d) w)) = Raise e.
Proof.
  intros Hu. unfold process_batch. cbn [py_get].
  change (match dict_lookup "updates" d with
          | Some x => x
          | None => VList []
          end) with (updates_of d).
  rewrite bind_lift_ok, py_len_iter, Hu. reflexivity.
Qed.

(** Over responses without failure, the run ends normally exactly when
    it went through the poll cycles. *)
Lemma run_from_cycles (self : VKBot) (reload : bool) (cls : VKBot_class)
    (server key : value) (ds : list (list (string * value))) :
  Forall no_failure ds ->
  forall (ts0 : value) (w w' : W) (ph : phase) (t : list action),
    run_from re_match self reload cls (PollBatch server key ts0)
      (map (fun d => Ok (VDict d)) ds) w = (Ok ph, w', t) <->
    ph = PollBatch server key (last (map next_cursor ds) ts0) /\
    cycles re_match (self_handlers self cls) server key ts0 ds w w' t.
Proof.
  induction ds as [|d ds IH]; intros Hnf ts0 w w' ph t.
  - cbn. unfold ret. split.
    + intros [= <- <- <-]. split; [reflexivity | constructor].
    + intros [-> H]. inversion H. reflexivity.
  - inversion Hnf as [|? ? Hd Hnf']; subst.
    cbn [map]. rewrite run_from_cons, (run_step_success self reload cls _ _ _ d w Hd).
    rewrite last_cons.
    destruct (py_iter (updates_of d)) as [us|e] eqn:Hus.
    + rewrite (process_batch_iter self cls d us w Hus). split.
      * destruct (process_updates re_match self cls 0 us w) as [[[[]|e] w1] t1] eqn:Hb;
          cbn [fst snd]; [|discriminate].
        destruct (run_from re_match self reload cls
                    (PollBatch server key (next_cursor d))
                    (map (fun d => Ok (VDict d)) ds) w1) as [[r2 w2] t2] eqn:Hrun.
        cbn [fst snd]. intros [= -> -> <-].
        apply (IH Hnf') in Hrun as [-> Hcyc]. split; [reflexivity|].
        apply process_updates_dispatched in Hb.
        exact (cycles_next re_match _ server key ts0 d ds us w w1 w' t1 t2 Hus Hb Hcyc).
      * intros [-> H].
        inversion H as [|? ? ? us' ? w1 ? tb tr Hus' Hb Hcyc]; subst.
        rewrite Hus in Hus'. injection Hus' as <-.
        apply process_updates_dispatched in Hb. rewrite Hb. cbn [fst snd].
        pose proof (proj2 (IH Hnf' (next_cursor d) w1 w' _ tr)
                      (conj eq_refl Hcyc)) as Hrun.
        rewrite Hrun. reflexivity.
    + rewrite (process_batch_unreadable self cls d e w Hus). split.
      * discriminate.
      * intros [_ H].
        inversion H as [|? ? ? us' ? w1 ? tb tr Hus' Hb Hcyc]; subst.
        rewrite Hus in Hus'. discriminate Hus'.
Qed.

(** C5.  Over any number of consecutive responses without failure.
    First, for a URL that formats: the run has come through the
    responses without exception exactly when it went through the poll
    cycles one after the other, each request carrying the cursor
    reached so far, the whole batch of the response being dispatched
    update by update, and only then the cursor being replaced by the
    response's [ts], or by 1 when it has none; it then waits with the
    cursor of the last response.  Second, in every case: the cursors
    sent are the initial one followed by the one each response led to,
    so request i+1 carries the [ts] of response i; no descriptor is
    requested; and when the run has not been ended by an exception,
    every response was consumed. *)
Theorem cursor_follows_responses (self : VKBot) (reload : bool) (cls : VKBot_class)
    (server key : value) (ds : list (list (string * value))) :
  Forall no_failure ds ->
  (url_formats server key = true ->
   forall (ts0 : value) (w w' : W) (ph : phase) (t : list action),
     run_from re_match self reload cls (PollBatch server key ts0)
       (map (fun d => Ok (VDict d)) ds) w = (Ok ph, w', t) <->
     ph = PollBatch server key (last (map next_cursor ds) ts0) /\
     cycles re_match (self_handlers self cls) server key ts0 ds w w' t) /\
  (forall (ts0 : value) (w w' : W) (r : result phase) (t : list action),
     run_from re_match self reload cls (PollBatch server key ts0)
       (map (fun d => Ok (VDict d)) ds) w = (r, w', t) ->
     exists n,
       n <= List.length ds /\
       cursors_sent t = firstn n (ts0 :: map next_cursor ds) /\
       acquisitions t = 0 /\
       (forall ph, r = Ok ph ->
          n = List.length ds /\
          ph = PollBatch server key (last (map next_cursor ds) ts0))).
Proof.
  intros Hds. split.
  - intros _. now apply run_from_cycles.
  - now apply run_from_cursors.
Qed.

(** ** Further properties of the dispatch pass *)

Lemma bind_silent_ok {A B : Type} (m : @M W A) (f : A -> @M W B) (w w1 : W) (a : A) :
  m w = (Ok a, w1, []) -> bind m f w = f a w1.
Proof.
  intros H. unfold bind. rewrite H. now destruct (f a w1) as [[r w2] t2].
Qed.

(** X6.  A dispatch pass invokes at most one callback.  When it ends
    with [break] exactly one callback, of a registered handler, was
    invoked; when no handler accepted, none was; when it ends in an
    exception, either a check raised and nothing was invoked, or the one
    callback invoked raised. *)
Theorem dispatch_invokes_at_most_one (handlers : list Handler) (ev : Event) (w : W) :
  match dispatch re_match handlers ev w with
  | (Ok true, _, t) => exists h, In h handlers /\ t = [Invoke (func h) ev]
  | (Ok false, _, t) => t = []
  | (Raise _, _, t) =>
      t = [] \/ exists h, In h handlers /\ t = [Invoke (func h) ev]
  end.
Proof.
  revert w. induction handlers as [|h handlers IH]; intros w; [reflexivity|].
  cbn [dispatch]. unfold bind. rewrite Handler_handle_eq.
  destruct (Rule_check re_match (rule h) ev w) as [[[v|e] w1] t1]; [|now left].
  destruct (py_truthy v).
  - destruct (fst (func h ev w1)); cbn [ret app].
    + exists h. split; [now left | reflexivity].
    + right. exists h. split; [now left | reflexivity].
  - specialize (IH w1).
    destruct (dispatch re_match handlers ev w1) as [[[[|]|e] w2] t2]; cbn [app].
    + destruct IH as (h' & Hin & ->). exists h'. split; [now right | reflexivity].
    + exact IH.
    + destruct IH as [-> | (h' & Hin & ->)]; [now left|].
      right. exists h'. split; [now right | reflexivity].
Qed.


(** X8.  A later registration cannot pre-empt an earlier one: when the
    dispatch pass over the handlers registered so far ends with an
    accepting handler or with an exception, it ends in exactly the same
    way, for every instance, after one more handler has been registered
    by either operation. *)
Theorem registration_cannot_preempt (b1 b2 : VKBot) (reg : registration)
    (cls : VKBot_class) (ev : Event) (w w1 : W) (r : result bool) (t : list action) :
  dispatch re_match (self_handlers b2 cls) ev w = (r, w1, t) ->
  r <> Ok false ->
  dispatch re_match (self_handlers b2 (register cls reg)) ev w = (r, w1, t).
Proof.
  intros Hd Hr.
  assert (Happ : self_handlers b2 (register cls reg)
                 = self_handlers b2 cls ++ [registered reg]).
  { destruct reg as [self args f | self [r0|] et f]; reflexivity. }
  rewrite Happ, dispatch_app, Hd.
  destruct r as [[|]|e]; try reflexivity. now contradiction Hr.
Qed.

(** X9.  Registrations compose in order: after any sequence of
    decorator applications, through whatever instances, the registry is
    what it was followed by the registered handlers in the order of
    their registration. *)
Theorem registrations_in_order (regs : list (@registration W)) (cls : VKBot_class) :
  _handlers (fold_left register regs cls) = _handlers cls ++ map registered regs.
Proof.
  revert cls. induction regs as [|reg regs IH]; intros cls; cbn [fold_left map].
  - now rewrite app_nil_r.
  - rewrite IH.
    assert (Hreg : _handlers (register cls reg) = _handlers cls ++ [registered reg]).
    { destruct reg as [self args f | self [r0|] et f]; reflexivity. }
    rewrite Hreg, <- app_assoc. reflexivity.
Qed.

(** ** Further properties of MessageRule.check *)

Lemma existsb_never {A : Type} (l : list A) : existsb (fun _ => false) l = false.
Proof. induction l as [|a l IH]; [reflexivity | exact IH]. Qed.

Lemma check_attachment_types_exact (self : MessageRule) (d : list (string * value))
    (kinds atts : list value) (c : bool) (w : W) :
  configured_list (attachment_types self) kinds ->
  (kinds <> [] ->
   dict_lookup "attachments" d = Some (VList atts) /\
   Forall (fun a => exists e k, a = VDict e /\ dict_lookup "type" e = Some k) atts) ->
  check_attachment_types self (VDict d) (VBool c) w
  = (Ok (VBool (c || attachments_hold kinds atts)), w, []).
Proof.
  intros Hcfg Hatts. unfold check_attachment_types, attachments_hold.
  destruct kinds as [|k kinds].
  - assert (Hf : py_truthy (attachment_types self) = false)
      by (destruct Hcfg as [[-> _] | ->]; reflexivity).
    rewrite Hf. cbn [existsb]. now rewrite existsb_never, orb_false_r.
  - destruct Hcfg as [[_ Hk] | Hk]; [discriminate|].
    destruct Hatts as [Hd Hall]; [discriminate|].
    rewrite Hk. cbn [py_truthy py_get]. rewrite Hd, bind_lift_ok.
    cbn [py_iter]. rewrite bind_lift_ok.
    rewrite (attachment_flags (k :: kinds) atts Hall), bind_lift_ok.
    now rewrite py_any_map.
Qed.

Lemma check_payload_exact (self : MessageRule) (d : list (string * value))
    (c : bool) (w : W) :
  check_payload self (VDict d) (VBool c) w
  = (Ok (VBool (c || payload_holds (payload self) d)), w, []).
Proof.
  unfold check_payload, payload_holds.
  destruct (py_truthy (payload self)).
  - cbn [py_get]. now rewrite bind_lift_ok.
  - cbn [andb]. now rewrite orb_false_r.
Qed.

Lemma check_func_exact (f : option callable) (ev : Event) (c b : bool) (w w' : W) :
  answers f ev w b w' ->
  check_func f ev (VBool c) w = (Ok (VBool (c || b)), w', []).
Proof.
  unfold answers, check_func. destruct f as [g|].
  - intros Hg. now rewrite (bind_silent_ok _ _ _ _ _ (call_eq _ _ _ _ _ Hg)).
  - intros [-> ->]. now rewrite orb_false_r.
Qed.

Lemma check_commands_exact (self : MessageRule) (d : list (string * value))
    (cs : list string) (txt : string) (c : bool) (w : W) :
  configured_list (commands self) (map VStr cs) ->
  (cs <> [] -> dict_lookup "text" d = Some (VStr txt)) ->
  check_commands self (VDict d) (VBool c) w
  = (Ok (VBool (c || commands_hold cs txt)), w, []).
Proof.
  intros [[Hc Hcs] | Hc] Htxt.
  - destruct cs; [|discriminate]. unfold check_commands. rewrite Hc.
    cbn. now rewrite orb_false_r.
  - now apply check_commands_strings.
Qed.

(** ** Rule.check of the built-in rules *)

Lemma py_or_bool_inv (a x v : value) :
  py_or a x = Ok v -> (exists b, v = VBool b) ->
  (exists c, a = VBool c) /\ (exists y, x = VBool y).
Proof.
  destruct a, x; cbn; intros [= <-] [flag Hflag]; try discriminate; eauto.
Qed.

Lemma py_get_ok_inv (obj : value) (key : string) (default x : value) :
  py_get obj key default = Ok x ->
  exists d, obj = VDict d /\
            x = match dict_lookup key d with Some y => y | None => default end.
Proof. destruct obj; cbn; intros [= <-]; eauto. Qed.

Lemma py_getitem_ok_inv (obj : value) (key : string) (x : value) :
  py_getitem obj key = Ok x -> exists d, obj = VDict d /\ dict_lookup key d = Some x.
Proof.
  destruct obj as [ | | | | | d | ]; cbn; try discriminate.
  destruct (dict_lookup key d) as [y|] eqn:Hy; intros [= <-]. eauto.
Qed.

Lemma py_iter_truthy (v : value) (items : list value) :
  py_truthy v = true -> py_iter v = Ok items -> items <> [].
Proof.
  destruct v as [ | | | s | l | d | ]; cbn [py_truthy py_iter]; try discriminate.
  - destruct s as [|c s]; [cbn; discriminate|].
    destruct (code_points_nonempty c s) as (p & ps & Hp).
    intros _ H.
    replace items with (map VStr (code_points (String c s))) by (now injection H).
    rewrite Hp. discriminate.
  - destruct l; [discriminate|]. intros _ [= <-]. discriminate.
  - destruct d; [discriminate|]. intros _ [= <-]. discriminate.
Qed.

Lemma mapR_ok_inv {A B : Type} (f : A -> result B) (l : list A) :
  forall ys, mapR f l = Ok ys -> Forall (fun a => exists y, f a = Ok y) l.
Proof.
  induction l as [|a l IH]; intros ys; cbn; [constructor|].
  destruct (f a) as [y|e] eqn:Hy; [|discriminate].
  destruct (mapR f l) as [ys'|e]; [|discriminate].
  intros _. constructor; eauto.
Qed.

Lemma check_attachment_types_ok (self : MessageRule) (obj : value) (c : bool) (w : W) :
  attachments_readable self obj ->
  exists b, check_attachment_types self obj (VBool c) w = (Ok (VBool b), w, []).
Proof.
  intros H. unfold check_attachment_types.
  destruct (py_truthy (attachment_types self)) eqn:Ht; [|now exists c].
  destruct (H Ht) as (d & items & -> & Hit & Hall).
  cbn [py_get]. rewrite bind_lift_ok, Hit, bind_lift_ok.
  destruct (mapR_total
              (fun i => t <-? py_getitem i "type" ;; py_in t (attachment_types self))
              items) as [flags Hflags].
  - eapply Forall_impl; [|exact Hall].
    intros a (e & k & b & -> & Hk & Hin). cbn [py_getitem]. rewrite Hk. eauto.
  - rewrite Hflags, bind_lift_ok. eexists. reflexivity.
Qed.

Lemma check_attachment_types_inv (self : MessageRule) (obj check v : value)
    (w w' : W) (t : list action) :
  check_attachment_types self obj check w = (Ok v, w', t) ->
  (exists b, v = VBool b) ->
  (exists c, check = VBool c) /\ attachments_readable self obj /\ w' = w.
Proof.
  unfold check_attachment_types, attachments_readable.
  destruct (py_truthy (attachment_types self)).
  - intros H Hv.
    apply bind_ok_inv in H as (atts & ? & ? & ? & H1 & H & _).
    apply lift_ok_inv in H1 as (H1 & -> & _).
    apply bind_ok_inv in H as (items & ? & ? & ? & H2 & H & _).
    apply lift_ok_inv in H2 as (H2 & -> & _).
    apply bind_ok_inv in H as (flags & ? & ? & ? & H3 & H & _).
    apply lift_ok_inv in H3 as (H3 & -> & _).
    apply lift_ok_inv in H as (H & -> & _).
    destruct (py_or_bool_inv _ _ _ H Hv) as [Hc _].
    split; [exact Hc|]. split; [|reflexivity]. intros _.
    apply py_get_ok_inv in H1 as (d & -> & ->).
    exists d, items. split; [reflexivity|]. split; [exact H2|].
    eapply Forall_impl; [|exact (mapR_ok_inv _ _ _ H3)].
    intros a [y Hy]. cbn beta in Hy.
    destruct (py_getitem a "type") as [k|] eqn:Hk; [|discriminate].
    apply py_getitem_ok_inv in Hk as (e & -> & Hk). exists e, k, y. auto.
  - unfold ret. intros [= <- <- _] Hv. split; [exact Hv|].
    split; [discriminate | reflexivity].
Qed.

Lemma check_payload_ok (self : MessageRule) (obj : value) (c : bool) (w : W) :
  payload_readable self obj ->
  exists b, check_payload self obj (VBool c) w = (Ok (VBool b), w, []).
Proof.
  intros H. unfold check_payload.
  destruct (py_truthy (payload self)) eqn:Ht; [|now exists c].
  destruct (H Ht) as [d ->]. cbn [py_get]. rewrite bind_lift_ok.
  eexists. reflexivity.
Qed.

Lemma check_payload_inv (self : MessageRule) (obj check v : value)
    (w w' : W) (t : list action) :
  check_payload self obj check w = (Ok v, w', t) ->
  (exists b, v = VBool b) ->
  (exists c, check = VBool c) /\ payload_readable self obj /\ w' = w.
Proof.
  unfold check_payload, payload_readable.
  destruct (py_truthy (payload self)).
  - intros H Hv.
    apply bind_ok_inv in H as (got & ? & ? & ? & H1 & H & _).
    apply lift_ok_inv in H1 as (H1 & -> & _).
    apply lift_ok_inv in H as (H & -> & _).
    destruct (py_or_bool_inv _ _ _ H Hv) as [Hc _].
    apply py_get_ok_inv in H1 as (d & -> & _). eauto.
  - unfold ret. intros [= <- <- _] Hv. split; [exact Hv|].
    split; [discriminate | reflexivity].
Qed.

Lemma check_func_inv (f : option callable) (ev : Event) (check v : value)
    (w w' : W) (t : list action) :
  check_func f ev check w = (Ok v, w', t) ->
  (exists b, v = VBool b) ->
  (exists c, check = VBool c) /\ exists b, answers f ev w b w'.
Proof.
  unfold check_func, answers. destruct f as [g|].
  - intros H Hv.
    apply bind_ok_inv in H as (r & w1 & ? & ? & H1 & H & _).
    apply call_inv in H1 as [H1 _].
    apply lift_ok_inv in H as (H & -> & _).
    destruct (py_or_bool_inv _ _ _ H Hv) as [Hc [y ->]]. eauto.
  - unfold ret. intros [= <- <- _] Hv. eauto.
Qed.

Lemma check_regexp_inv (self : MessageRule) (obj check v : value)
    (w w' : W) (t : list action) :
  check_regexp re_match self obj check w = (Ok v, w', t) ->
  py_truthy (regexp self) = false /\ v = check /\ w' = w.
Proof.
  destruct (py_truthy (regexp self)) eqn:Hr.
  - rewrite (check_regexp_eq self obj check w Hr).
    destruct (py_getitem obj "text") as [text|]; [|discriminate].
    destruct (re_match (regexp self) text); discriminate.
  - rewrite (check_regexp_unset self obj check w Hr). intros [= <- <- _]. auto.
Qed.

Lemma commands_loop_ok (obj text : value) (cmds : list value) :
  py_getitem obj "text" = Ok text ->
  Forall (fun c => exists b, py_in c text = Ok b) cmds ->
  forall (c : bool) (w : W),
    exists b,
      foldM (fun check command =>
               text <- lift (py_getitem obj "text") ;;
               b <- lift (py_in command text) ;;
               lift (py_or check (VBool b)))
            cmds (VBool c) w
      = (Ok (VBool b), w, []).
Proof.
  intros Htxt. induction 1 as [|cmd cmds [b Hb] _ IH]; intros c w; cbn [foldM].
  - now exists c.
  - rewrite (bind_pure _ _ w (VBool (c || b))).
    + apply IH.
    + rewrite Htxt, bind_lift_ok, Hb, bind_lift_ok. reflexivity.
Qed.

Lemma commands_loop_inv (obj : value) (cmds : list value) :
  forall (check v : value) (w w' : W) (t : list action),
    foldM (fun check command =>
             text <- lift (py_getitem obj "text") ;;
             b <- lift (py_in command text) ;;
             lift (py_or check (VBool b)))
          cmds check w
    = (Ok v, w', t) ->
    (exists b, v = VBool b) ->
    (exists c, check = VBool c) /\ w' = w /\
    Forall (fun c => exists text b,
              py_getitem obj "text" = Ok text /\ py_in c text = Ok b) cmds.
Proof.
  induction cmds as [|cmd cmds IH]; intros check v w w' t; cbn [foldM].
  - unfold ret. intros [= <- <- _] Hv. auto.
  - intros H Hv.
    apply bind_ok_inv in H as (check' & w1 & ? & ? & H1 & H & _).
    destruct (IH _ _ _ _ _ H Hv) as (Hc' & -> & Hall).
    apply bind_ok_inv in H1 as (text & ? & ? & ? & H2 & H1 & _).
    apply lift_ok_inv in H2 as (H2 & -> & _).
    apply bind_ok_inv in H1 as (b & ? & ? & ? & H3 & H1 & _).
    apply lift_ok_inv in H3 as (H3 & -> & _).
    apply lift_ok_inv in H1 as (H1 & -> & _).
    destruct (py_or_bool_inv _ _ _ H1 Hc') as [Hc _].
    split; [exact Hc|]. split; [reflexivity|]. constructor; eauto.
Qed.

Lemma check_commands_ok (self : MessageRule) (obj : value) (c : bool) (w : W) :
  text_readable self obj ->
  exists b, check_commands self obj (VBool c) w = (Ok (VBool b), w, []).
Proof.
  intros H. unfold check_commands.
  destruct (py_truthy (commands self)) eqn:Ht; [|now exists c].
  destruct (H Ht) as (cmds & d & text & Hit & -> & Htxt & Hall).
  rewrite Hit, bind_lift_ok. apply (commands_loop_ok (VDict d) text); [|exact Hall].
  cbn [py_getitem]. now rewrite Htxt.
Qed.

Lemma check_commands_inv (self : MessageRule) (obj check v : value)
    (w w' : W) (t : list action) :
  check_commands self obj check w = (Ok v, w', t) ->
  (exists b, v = VBool b) ->
  (exists c, check = VBool c) /\ text_readable self obj /\ w' = w.
Proof.
  unfold check_commands, text_readable.
  destruct (py_truthy (commands self)) eqn:Ht.
  - intros H Hv.
    apply bind_ok_inv in H as (cmds & ? & ? & ? & H1 & H & _).
    apply lift_ok_inv in H1 as (H1 & -> & _).
    destruct (commands_loop_inv _ _ _ _ _ _ _ H Hv) as (Hc & -> & Hall).
    split; [exact Hc|]. split; [|reflexivity]. intros _.
    pose proof (py_iter_truthy _ _ Ht H1) as Hne.
    destruct cmds as [|cmd cmds]; [contradiction|].
    inversion Hall as [|? ? (text & b & Htxt & Hb) _]; subst.
    apply py_getitem_ok_inv in Htxt as (d & -> & Htxt).
    exists (cmd :: cmds), d, text. repeat split; auto.
    eapply Forall_impl; [|exact Hall].
    intros c (text' & b' & Htxt' & Hb'). cbn [py_getitem] in Htxt'.
    rewrite Htxt in Htxt'. injection Htxt' as <-. eauto.
  - unfold ret. intros [= <- <- _] Hv. split; [exact Hv|].
    split; [discriminate | reflexivity].
Qed.

(** [check] of a built-in rule returns a boolean, with the state as
    it was and no action, exactly on the events and states of
    [check_defined]. *)
Lemma builtin_check_iff (r : Rule) (ev : Event) (w : W) :
  is_builtin r = true ->
  ((exists b, Rule_check re_match r ev w = (Ok (VBool b), w, [])) <->
   check_defined r ev w) /\
  (forall R ty obj gid,
     r = OfMessageRule R ->
     ev = EventOf ty obj gid ->
     py_eq ty (VStr "message_new") = false ->
     Rule_check re_match r ev w = (Ok (VBool false), w, [])).
Proof.
  intros Hr. split.
  - destruct r as [ | R | R | ]; try discriminate;
      destruct ev as [ | ty obj gid]; cbn [Rule_check check_defined].
    + split; [intros [b H]; discriminate | contradiction].
    + unfold TypeRule_check. cbn [Event_type]. rewrite bind_lift_ok.
      destruct (py_eq (TypeRule_type R) ty).
      * unfold well_behaved.
        destruct (TypeRule_function R) as [f|]; split.
        -- intros [b H] _ g [= <-]. apply call_inv in H as [H _]. eauto.
        -- intros H. destruct (H eq_refl f eq_refl) as [b Hb].
           exists b. now apply call_eq.
        -- intros _ _ g Hg. discriminate.
        -- intros _. now exists true.
      * split; [intros _ Hf; discriminate | intros _; now exists false].
    + split; [intros [b H]; discriminate | contradiction].
    + destruct (py_eq ty (VStr "message_new")) eqn:Hty.
      * rewrite MessageRule_check_message_new by exact Hty. split.
        -- intros [b H] _.
           apply bind_ok_inv in H as (c1 & w1 & ? & ? & H1 & H & _).
           apply bind_ok_inv in H as (c2 & w2 & ? & ? & H2 & H & _).
           apply bind_ok_inv in H as (c3 & w3 & ? & ? & H3 & H & _).
           apply bind_ok_inv in H as (c4 & w4 & ? & ? & H4 & H & _).
           apply bind_ok_inv in H as (c5 & w5 & ? & ? & H5 & H & _).
           apply bind_ok_inv in H as (c6 & w6 & ? & ? & H6 & H & _).
           unfold ret in H. injection H as -> -> _.
           destruct (check_commands_inv _ _ _ _ _ _ _ H6 (ex_intro _ b eq_refl))
             as (Hb5 & Htxt & ->).
           destruct (check_regexp_inv _ _ _ _ _ _ _ H5) as (Hre & -> & ->).
           destruct (check_func_inv _ _ _ _ _ _ _ H4 Hb5) as (Hb3 & bm & Hfm).
           destruct (check_func_inv _ _ _ _ _ _ _ H3 Hb3) as (Hb2 & bt & Hft).
           destruct (check_payload_inv _ _ _ _ _ _ _ H2 Hb2) as (Hb1 & Hpay & ->).
           destruct (check_attachment_types_inv _ _ _ _ _ _ _ H1 Hb1)
             as (_ & Hatt & ->).
           repeat split; eauto.
        -- intros H.
           destruct (H eq_refl)
             as (Hre & (bt & bm & w1 & Hft & Hfm) & Hatt & Hpay & Htxt).
           destruct (check_attachment_types_ok R obj false w Hatt) as [b1 E1].
           rewrite (bind_pure _ _ _ _ E1).
           destruct (check_payload_ok R obj b1 w Hpay) as [b2 E2].
           rewrite (bind_pure _ _ _ _ E2).
           rewrite (bind_silent_ok _ _ _ _ _ (check_func_exact _ _ _ _ _ _ Hft)).
           rewrite (bind_silent_ok _ _ _ _ _ (check_func_exact _ _ _ _ _ _ Hfm)).
           rewrite (bind_pure _ _ _ _ (check_regexp_unset R _ _ w Hre)).
           destruct (check_commands_ok R obj (b2 || bt || bm) w Htxt) as [b5 E5].
           rewrite (bind_pure _ _ _ _ E5).
           now exists b5.
      * rewrite (MessageRule_check_other_type R ty obj gid w Hty).
        split; [intros _ Hf; discriminate | intros _; now exists false].
  - intros R ty obj gid -> -> Hty. now apply MessageRule_check_other_type.
Qed.

(** C1, as amended.  For a rule of either built-in class, [check]
    returns a boolean, raises nothing, leaves the user state as it was
    and performs no action on the events and states of [check_defined]:
    the event has its attributes; for a TypeRule, when the types are
    equal the refinement function, if any, returns a boolean and keeps
    the state; for a MessageRule on a [message_new] event, no [regexp]
    is configured, the predicates return booleans and leave the state
    as it was, and the message holds what each configured condition
    reads.  For a rule whose payload and predicate results are not
    objects these are the only events and states on which it does.  On
    an event of another type a MessageRule returns [False]. *)
Theorem builtin_check_total (r : Rule) (ev : Event) (w : W) :
  is_builtin r = true ->
  (check_defined r ev w ->
   exists b, Rule_check re_match r ev w = (Ok (VBool b), w, [])) /\
  (plain_rule r ->
   (exists b, Rule_check re_match r ev w = (Ok (VBool b), w, [])) ->
   check_defined r ev w) /\
  (forall R ty obj gid,
     r = OfMessageRule R ->
     ev = EventOf ty obj gid ->
     py_eq ty (VStr "message_new") = false ->
     Rule_check re_match r ev w = (Ok (VBool false), w, [])).
Proof.
  intros Hr. destruct (builtin_check_iff r ev w Hr) as [Hiff Hother].
  split; [exact (proj2 Hiff)|]. split; [|exact Hother].
  intros _. exact (proj1 Hiff).
Qed.

(** X1.  The conditions of a MessageRule are combined by "or", and all
    of them are evaluated.  On a [message_new] event whose message is a
    dict holding what the configured conditions read, with no [regexp]
    configured and predicates that answer booleans, [check] returns the
    disjunction of: some attachment has a configured type; the payload
    equals the configured payload; [func_text] answers true; [func_msg]
    answers true; some command occurs in the text.  Both predicates are
    called, in this order, whatever the earlier conditions gave, and the
    state is the one they leave. *)
Theorem MessageRule_check_any_of (self : MessageRule) (ty gid : value)
    (d : list (string * value)) (kinds atts : list value) (cs : list string)
    (txt : string) (bt bm : bool) (w w1 w2 : W) :
  py_eq ty (VStr "message_new") = true ->
  py_truthy (regexp self) = false ->
  configured_list (attachment_types self) kinds ->
  (kinds <> [] ->
   dict_lookup "attachments" d = Some (VList atts) /\
   Forall (fun a => exists e k, a = VDict e /\ dict_lookup "type" e = Some k) atts) ->
  answers (func_text self) (EventOf ty (VDict d) gid) w bt w1 ->
  answers (func_msg self) (EventOf ty (VDict d) gid) w1 bm w2 ->
  configured_list (commands self) (map VStr cs) ->
  (cs <> [] -> dict_lookup "text" d = Some (VStr txt)) ->
  MessageRule_check re_match self (EventOf ty (VDict d) gid) w
  = (Ok (VBool (attachments_hold kinds atts || payload_holds (payload self) d
                || bt || bm || commands_hold cs txt)), w2, []).
Proof.
  intros Hty Hre Hk Hatts Hft Hfm Hc Htxt.
  rewrite MessageRule_check_message_new by exact Hty.
  rewrite (bind_pure _ _ _ _
             (check_attachment_types_exact self d kinds atts false w Hk Hatts)).
  rewrite (bind_pure _ _ _ _ (check_payload_exact self d _ w)).
  rewrite (bind_silent_ok _ _ _ _ _ (check_func_exact _ _ _ _ _ _ Hft)).
  rewrite (bind_silent_ok _ _ _ _ _ (check_func_exact _ _ _ _ _ _ Hfm)).
  rewrite (bind_pure _ _ _ _ (check_regexp_unset self _ _ w2 Hre)).
  rewrite (bind_pure _ _ _ _ (check_commands_exact self d cs txt _ w2 Hc Htxt)).
  reflexivity.
Qed.

(** X4.  A rule with only [func_text] configured, whose predicate
    does not return an object, returns what or-ing the predicate's
    result into [False] gives: the result itself when it is a boolean
    or an integer, a [TypeError] for [None], a string, a list or a
    dict; an exception of the predicate comes out of [check] as it
    is. *)
Theorem only_func_text_result (f : callable) (ty obj gid : value) (w : W) :
  py_eq ty (VStr "message_new") = true ->
  (forall id w', f (EventOf ty obj gid) w <> (Ok (VObject id), w')) ->
  MessageRule_check re_match (only_func_text f) (EventOf ty obj gid) w
  = (match fst (f (EventOf ty obj gid) w) with
     | Ok (VBool b) => Ok (VBool b)
     | Ok (VInt n) => Ok (VInt n)
     | Ok _ => Raise TypeError
     | Raise e => Raise e
     end, snd (f (EventOf ty obj gid) w), []).
Proof.
  intros Hty _. rewrite MessageRule_check_message_new by exact Hty.
  unfold check_attachment_types, check_payload, check_func, check_regexp,
    check_commands, bind, call, lift, ret. cbn.
  destruct (f (EventOf ty obj gid) w) as [[v|e] w']; [|reflexivity].
  destruct v; reflexivity.
Qed.

(** X5.  Missing message fields.  With [attachment_types] configured,
    a [message_new] event whose message has no [attachments] makes
    [check] raise [TypeError] at once, before anything else is read or
    called; with [commands] configured, one whose message has no [text]
    never gets an answer: [check] ends in an exception. *)
Theorem missing_field_raises (self : MessageRule) (ty gid : value)
    (d : list (string * value)) (w : W) :
  py_eq ty (VStr "message_new") = true ->
  (py_truthy (attachment_types self) = true ->
   dict_lookup "attachments" d = None ->
   MessageRule_check re_match self (EventOf ty (VDict d) gid) w
   = (Raise TypeError, w, [])) /\
  (py_truthy (commands self) = true ->
   dict_lookup "text" d = None ->
   exists e w' t,
     MessageRule_check re_match self (EventOf ty (VDict d) gid) w = (Raise e, w', t)).
Proof.
  intros Hty. split.
  - intros Ha Hd. rewrite MessageRule_check_message_new by exact Hty.
    unfold bind at 1. unfold check_attachment_types. rewrite Ha.
    cbn [py_get]. rewrite Hd, bind_lift_ok. reflexivity.
  - intros Hc Hd. rewrite MessageRule_check_message_new by exact Hty.
    do 5 (apply raises_bind; intros ? ? ? _).
    match goal with
    | |- exists e w' t, bind (check_commands _ _ ?c) _ ?w0 = _ =>
        assert (Hr : exists e, check_commands self (VDict d) c w0 = (Raise e, w0, []))
    end.
    { unfold check_commands. rewrite Hc.
      destruct (commands self) as [ | | | s | items | entries | ];
        cbn in Hc; try discriminate; cbn [py_iter];
        try (eexists; reflexivity); rewrite bind_lift_ok.
      - destruct s as [|ch s]; [discriminate|].
        destruct (code_points_nonempty ch s) as (p & ps & ->).
        cbn [map foldM py_getitem]. rewrite Hd.
        eexists. reflexivity.
      - destruct items as [|i items]; [discriminate|].
        cbn [foldM py_getitem]. rewrite Hd. eexists. reflexivity.
      - destruct entries as [|i entries]; [discriminate|].
        cbn [map foldM py_getitem]. rewrite Hd. eexists. reflexivity. }
    destruct Hr as [e He]. unfold bind. rewrite He. eauto.
Qed.

(** ** Further properties of the run loop *)

(** X10.  What processing one update leaves behind, once the event is
    built and the dispatch pass has ended without exception: when a
    handler accepted, the debug record and that handler's invocation and
    nothing else; when none did, the debug record and exactly one
    warning carrying the event's type, no callback having been invoked
    (for an event without attributes, reading the type for the warning
    raises instead). *)
Theorem process_update_outcome (self : VKBot) (cls : VKBot_class) (i : Z)
    (event : value) (ev : Event) (b : bool) (w w1 : W) (t : list action) :
  Event_init event = Ok ev ->
  dispatch re_match (self_handlers self cls) ev w = (Ok b, w1, t) ->
  process_update re_match self cls i event w =
  if b then
    (Ok tt, w1, Log DEBUG "Processing update {0}: {1}" [VInt i; event] :: t)
  else
    match Event_type ev with
    | Ok ty =>
        (Ok tt, w1,
         [Log DEBUG "Processing update {0}: {1}" [VInt i; event];
          Log WARNING "Event {0} wasn't processed by any handler." [ty]])
    | Raise e =>
        (Raise e, w1, [Log DEBUG "Processing update {0}: {1}" [VInt i; event]])
    end.
Proof.
  intros Hev Hd. unfold process_update.
  unfold bind at 1. unfold tell at 1. rewrite Hev, bind_lift_ok.
  unfold bind at 1. rewrite Hd. destruct b.
  - cbn. now rewrite app_nil_r.
  - destruct (dispatch_app_declined _ [] ev _ _ _ Hd) as [-> _].
    destruct (Event_type ev) as [ty|e]; reflexivity.
Qed.

(** X11.  An update that is not a non-empty dict ends the run when the
    registered handlers (if any) all have built-in rules: a falsy update
    (an empty dict, [null]) gives an event without attributes, and the
    first check, or with an empty registry the warning, raises
    [AttributeError] on reading its type; a truthy update that is not a
    dict raises it in the [Event] constructor.  No callback is
    invoked. *)
Theorem unusable_update_raises (self : VKBot) (cls : VKBot_class) (i : Z)
    (event : value) (w : W) :
  (forall d, event = VDict d -> d = []) ->
  Forall (fun h => is_builtin (rule h) = true) (self_handlers self cls) ->
  process_update re_match self cls i event w
  = (Raise AttributeError, w,
     [Log DEBUG "Processing update {0}: {1}" [VInt i; event]]).
Proof.
  intros Hev Hrules. unfold process_update.
  unfold bind at 1. unfold tell at 1.
  destruct (py_truthy event) eqn:Ht.
  - assert (Hinit : Event_init event = Raise AttributeError).
    { unfold Event_init. rewrite Ht.
      destruct event; try reflexivity.
      rewrite (Hev _ eq_refl) in Ht. discriminate. }
    rewrite Hinit. reflexivity.
  - unfold Event_init. rewrite Ht, bind_lift_ok.
    destruct (self_handlers self cls) as [|h hs].
    + reflexivity.
    + inversion Hrules as [|? ? Hh _]. cbn [dispatch].
      unfold bind at 1. unfold bind at 1. rewrite Handler_handle_eq.
      destruct (rule h) as [ | R | R | ]; try discriminate; reflexivity.
Qed.

(** The updates after one whose processing raises are never reached. *)
Lemma process_updates_raise (self : VKBot) (cls : VKBot_class) (u : value)
    (us2 : list value) (e : exn) (w2 : W) (t2 : list action) :
  forall (us1 : list value) (i : Z) (w w1 : W) (t1 : list action),
    process_updates re_match self cls i us1 w = (Ok tt, w1, t1) ->
    process_update re_match self cls (i + Z.of_nat (List.length us1)) u w1
    = (Raise e, w2, t2) ->
    process_updates re_match self cls i (us1 ++ u :: us2) w
    = (Raise e, w2, t1 ++ t2).
Proof.
  induction us1 as [|a us1 IH]; intros i w w1 t1.
  - cbn [process_updates List.length app Z.of_nat]. rewrite Z.add_0_r.
    unfold ret. intros [= <- <-] Hu. now rewrite (bind_raise _ _ _ _ _ _ Hu).
  - cbn [process_updates List.length app]. intros Hok Hu.
    apply bind_ok_inv in Hok as (x & wa & ta & tb & Ha & Hrest & ->).
    rewrite Nat2Z.inj_succ, <- Z.add_1_l, Z.add_assoc in Hu.
    unfold bind. rewrite Ha, (IH _ _ _ _ Hrest Hu). now rewrite app_assoc.
Qed.

(** X12.  An exception while an update is processed (from a check, from
    a callback, from a malformed update) ends the run there: the
    updates after it in the batch are not processed, the cursor is not
    replaced, and no further request is made, whatever responses would
    have followed. *)
Theorem update_exception_ends_run (self : VKBot) (reload : bool) (cls : VKBot_class)
    (server key ts u : value) (d : list (string * value)) (us1 us2 : list value)
    (e : exn) (w w1 w2 : W) (t1 t2 : list action) (rest : list (result value)) :
  no_failure d ->
  dict_lookup "updates" d = Some (VList (us1 ++ u :: us2)) ->
  process_updates re_match self cls 0 us1 w = (Ok tt, w1, t1) ->
  process_update re_match self cls (Z.of_nat (List.length us1)) u w1
  = (Raise e, w2, t2) ->
  run_from re_match self reload cls (PollBatch server key ts)
    (Ok (VDict d) :: rest) w
  = (Raise e, w2,
     [Log DEBUG "Getting updates" []; HttpGet server key ts;
      Log DEBUG "Got {0} new updates"
        [VInt (Z.of_nat (List.length (us1 ++ u :: us2)))]] ++ t1 ++ t2).
Proof.
  intros Hd Hu Hok Hraise.
  rewrite run_from_cons, (run_step_success self reload cls _ _ _ d w Hd).
  assert (Hb : process_batch re_match self cls (VDict d) w
               = (Raise e, w2,
                  Log DEBUG "Got {0} new updates"
                    [VInt (Z.of_nat (List.length (us1 ++ u :: us2)))] :: t1 ++ t2)).
  { unfold process_batch. cbn [py_get]. rewrite Hu, bind_lift_ok.
    cbn [py_len]. rewrite bind_lift_ok.
    unfold bind at 1. unfold tell at 1. cbn [py_iter]. rewrite bind_lift_ok.
    now rewrite (process_updates_raise self cls u us2 e w2 t2 us1 0 w w1 t1 Hok Hraise). }
  rewrite Hb. reflexivity.
Qed.

(** After a poll response the loop is in the same session with some
    cursor, or back at the acquisition (only with [reload]), or over
    (only without). *)
Lemma run_step_next_phase (self : VKBot) (reload : bool) (cls : VKBot_class)
    (server key ts : value) (response : result value) (ph : phase)
    (w w' : W) (t : list action) :
  run_step re_match self reload cls (PollBatch server key ts) response w
  = (Ok ph, w', t) ->
  (ph = AcquireServer /\ reload = true) \/
  (ph = Terminated /\ reload = false) \/
  (exists ts', ph = PollBatch server key ts').
Proof.
  unfold run_step. intros H.
  apply bind_ok_inv in H as (rq & ? & ? & ? & _ & H & _).
  apply bind_ok_inv in H as (failed & ? & ? & ? & _ & H & _).
  destruct (py_truthy failed).
  - apply bind_ok_inv in H as (c1 & ? & ? & ? & _ & H & _).
    apply bind_ok_inv in H as (? & ? & ? & ? & _ & H & _).
    apply bind_ok_inv in H as (c2 & ? & ? & ? & _ & H & _).
    destruct (py_eq c2 (VInt 1)).
    + injection H as <- _ _. right. right. eauto.
    + destruct reload.
      * injection H as <- _ _. now left.
      * apply bind_ok_inv in H as (? & ? & ? & ? & _ & H & _).
        injection H as <- _ _. right. now left.
  - apply bind_ok_inv in H as (? & ? & ? & ? & _ & H & _).
    apply bind_ok_inv in H as (ts' & ? & ? & ? & _ & H & _).
    injection H as <- _ _. right. right. eauto.
Qed.






(** X14.  Failure code 1 is retried at once and without limit: over
    any number of consecutive responses with that code the loop sends
    the same poll request again each time, stays in the same phase with
    the same cursor and does nothing else but log the failure. *)
Theorem failure_code_1_repeats (self : VKBot) (reload : bool) (cls : VKBot_class)
    (server key ts code : value) (d : list (string * value)) (n : nat) (w : W) :
  dict_lookup "failed" d = Some code ->
  py_eq code (VInt 1) = true ->
  run_from re_match self reload cls (PollBatch server key ts)
    (repeat (Ok (VDict d)) n) w
  = (Ok (PollBatch server key ts), w,
     List.concat (repeat [Log DEBUG "Getting updates" []; HttpGet server key ts;
                     Log ERROR "LongPoll failed. Code: {0}" [code]] n)).
Proof.
  intros Hd Hc. induction n as [|n IH]; [reflexivity|].
  cbn [repeat List.concat]. rewrite run_from_cons.
  rewrite (run_step_failed self reload cls server key ts code d w Hd
             (py_eq_one_truthy code Hc)), Hc, IH.
  reflexivity.
Qed.

(** X15.  A descriptor that lacks [ts], [server] or [key] makes [run]
    raise [KeyError] right after the acquisition: no poll request is
    made and the remaining responses are not consumed. *)
Theorem incomplete_descriptor_raises (self : VKBot) (threaded reload : bool)
    (cls : VKBot_class) (s : list (string * value)) (rest : list (result value))
    (w : W) :
  dict_lookup "ts" s = None \/ dict_lookup "server" s = None \/
  dict_lookup "key" s = None ->
  run re_match self threaded reload cls (Ok (VDict s) :: rest) w
  = (Raise KeyError, w,
     [Log INFO "Getting new longpoll server" [];
      GetLongPollServer (VKBot_group_id self);
      Log DEBUG "getLongPollServer returned {0}" [VDict s]]).
Proof.
  intros H. unfold run. rewrite run_from_acquire.
  assert (Hstep : run_step re_match self reload cls AcquireServer (Ok (VDict s)) w
                  = (Raise KeyError, w,
                     [Log DEBUG "getLongPollServer returned {0}" [VDict s]])).
  { unfold run_step. rewrite bind_lift_ok.
    unfold bind at 1. unfold tell at 1. cbn [py_getitem].
    destruct (dict_lookup "ts" s) as [ts|]; [|reflexivity].
    rewrite bind_lift_ok.
    destruct (dict_lookup "server" s) as [server|]; [|reflexivity].
    rewrite bind_lift_ok.
    destruct (dict_lookup "key" s) as [key|]; [|reflexivity].
    destruct H as [H | [H | H]]; discriminate. }
  rewrite Hstep. reflexivity.
Qed.

Lemma run_from_alive (self : VKBot) (cls : VKBot_class)
    (responses : list (result value)) :
  forall (ph : phase) (w : W),
    ph <> Terminated ->
    fst (fst (run_from re_match self true cls ph responses w)) <> Ok Terminated.
Proof.
  induction responses as [|response rest IH]; intros ph w Hph.
  - destruct ph; cbn; congruence.
  - destruct ph as [ | server key ts | ]; [| |contradiction].
    + rewrite run_from_acquire.
      destruct (run_step re_match self true cls AcquireServer response w)
        as [[[ph'|e] w1] t1] eqn:Hstep; cbn [fst]; [|discriminate].
      apply IH. unfold run_step in Hstep.
      apply bind_ok_inv in Hstep as (? & ? & ? & ? & _ & H & _).
      apply bind_ok_inv in H as (? & ? & ? & ? & _ & H & _).
      apply bind_ok_inv in H as (? & ? & ? & ? & _ & H & _).
      apply bind_ok_inv in H as (? & ? & ? & ? & _ & H & _).
      apply bind_ok_inv in H as (? & ? & ? & ? & _ & H & _).
      injection H as <- _ _. discriminate.
    + rewrite run_from_cons.
      destruct (run_step re_match self true cls (PollBatch server key ts) response w)
        as [[[ph'|e] w1] t1] eqn:Hstep; cbn [fst]; [|discriminate].
      apply IH.
      destruct (run_step_next_phase _ _ _ _ _ _ _ _ _ _ _ Hstep)
        as [[-> _] | [[_ Hr] | [ts' ->]]]; discriminate.
Qed.

(** X16.  Called with [reload], [run] never ends by itself: whatever
    the responses, it does not reach the point after the outer loop; it
    is either still waiting for a response or ended by an exception. *)
Theorem run_with_reload_never_terminates (self : VKBot) (threaded : bool)
    (cls : VKBot_class) (responses : list (result value)) (w : W) :
  fst (fst (run re_match self threaded true cls responses w)) <> Ok Terminated.
Proof. unfold run. apply run_from_alive. discriminate. Qed.

End Properties.

(** ** The properties at sample inputs *)

(** C1, as stated, fails: a rule with only [commands] configured,
    checked against a [message_new] event whose message has no [text],
    raises [KeyError]. *)
Lemma commands_rule_raises_without_text :
  MessageRule_check (W := unit) never_matches (only_commands (VList [VStr "/start"]))
    (EventOf (VStr "message_new") (VDict []) VNone) tt = (Raise KeyError, tt, []) /\
  ~ returns_bool
      (MessageRule_check never_matches (only_commands (VList [VStr "/start"]))
         (EventOf (VStr "message_new") (VDict []) VNone)) tt.
Proof.
  split; [reflexivity|].
  intros (b & w' & t & H). discriminate H.
Qed.

Lemma builtin_check_total_witness :
  is_builtin (OfMessageRule sample_rule) = true /\
  check_defined (OfMessageRule sample_rule) sample_message 0 /\
  exists b,
    Rule_check never_matches (OfMessageRule sample_rule) sample_message 0
    = (Ok (VBool b), 0, []).
Proof.
  assert (H : check_defined (OfMessageRule sample_rule) sample_message 0).
  { intros _. split; [reflexivity|].
    split; [exists false, false, 0; split; reflexivity|].
    split; [|split].
    - intros _. eexists. eexists. split; [reflexivity|]. split; [reflexivity|].
      constructor; [|constructor].
      eexists. eexists. eexists. split; [reflexivity|]. split; reflexivity.
    - intros _. eexists. reflexivity.
    - intros _. eexists. eexists. eexists.
      split; [reflexivity|]. split; [reflexivity|]. split; [reflexivity|].
      repeat constructor; eexists; reflexivity. }
  split; [reflexivity|]. split; [exact H|].
  exact (proj1 (builtin_check_total never_matches (OfMessageRule sample_rule)
                  sample_message 0 eq_refl) H).
Defined.



Lemma commands_condition_witness :
  exists b,
    MessageRule_check (W := unit) never_matches
      (only_commands (VList (map VStr ["/start"%string; "/help"%string])))
      (EventOf (VStr "message_new") (VDict [("text"%string, VStr "say /help")]) VNone) tt
    = (Ok (VBool b), tt, []) /\
    (b = true <->
     exists cmd, In cmd ["/start"%string; "/help"%string] /\ occurs_in cmd "say /help").
Proof.
  exact (proj2 (proj2 (commands_condition never_matches tt))
           ["/start"%string; "/help"%string]
           [("text"%string, VStr "say /help")] "say /help"%string VNone eq_refl).
Defined.

Lemma failure_code_1_retries_witness :
  run_step (W := nat) never_matches (VKBot_init (VInt 171)) false
    {| _handlers := [storing_handler 1] |}
    (PollBatch (VStr "https://lp.vk.com/wh171") (VStr "k1") (VStr "10"))
    (Ok (VDict [("failed"%string, VInt 1); ("ts"%string, VStr "30")])) 0
  = (Ok (PollBatch (VStr "https://lp.vk.com/wh171") (VStr "k1") (VStr "10")), 0,
     [Log ERROR "LongPoll failed. Code: {0}" [VInt 1]]).
Proof.
  exact (proj1 (failure_code_1_retries never_matches (VKBot_init (VInt 171)) false
                  {| _handlers := [storing_handler 1] |}
                  (VStr "https://lp.vk.com/wh171") (VStr "k1") (VStr "10") (VInt 1)
                  [("failed"%string, VInt 1); ("ts"%string, VStr "30")] [] 0
                  eq_refl eq_refl)).
Defined.



Lemma cursor_follows_responses_witness :
  Forall no_failure sample_responses /\
  url_formats (VStr "https://lp.vk.com/wh171") (VStr "k1") = true /\
  cycles (W := nat) never_matches [wall_handler; storing_handler 1]
    (VStr "https://lp.vk.com/wh171") (VStr "k1") (VStr "10") sample_responses 0 1
    (snd (run_from never_matches (VKBot_init (VInt 171)) false
            {| _handlers := [wall_handler; storing_handler 1] |}
            (PollBatch (VStr "https://lp.vk.com/wh171") (VStr "k1") (VStr "10"))
            (map (fun d => Ok (VDict d)) sample_responses) 0)) /\
  cursors_sent
    (snd (run_from (W := nat) never_matches (VKBot_init (VInt 171)) false
            {| _handlers := [wall_handler; storing_handler 1] |}
            (PollBatch (VStr "https://lp.vk.com/wh171") (VStr "k1") (VStr "10"))
            (map (fun d => Ok (VDict d)) sample_responses) 0))
  = [VStr "10"; VStr "11"; VStr "12"].
Proof.
  assert (H : Forall no_failure sample_responses).
  { repeat constructor. }
  split; [exact H|]. split; [reflexivity|]. split; [|reflexivity].
  exact (proj2 (proj1 (proj1 (cursor_follows_responses never_matches
                                (VKBot_init (VInt 171)) false
                                {| _handlers := [wall_handler; storing_handler 1] |}
                                (VStr "https://lp.vk.com/wh171") (VStr "k1")
                                sample_responses H)
                         eq_refl (VStr "10") 0 1
                         (PollBatch (VStr "https://lp.vk.com/wh171") (VStr "k1") (VInt 1))
                         _)
                  eq_refl)).
Defined.

(** C8, as stated, fails: registering the same callback with the same
    arguments twice leaves two entries where one registration leaves
    one. *)
Lemma second_registration_adds_an_entry :
  ~ registration_idempotent (W := unit).
Proof.
  intros H.
  specialize (H (VKBot_init (VInt 171)) None (VStr "message_new")
                (fun _ w => (Ok VNone, w)) VKBot_class_initial).
  apply (f_equal (@List.length _)) in H. discriminate H.
Qed.

(** C10, as stated, fails: with a handler for new messages registered
    before, the handler registered next is not offered a new message;
    the pass ends with the callback of the first one. *)
Lemma earlier_handler_hides_registered_one :
  ~ registered_handler_always_offered (W := nat) never_matches.
Proof.
  intros H.
  destruct (H (VKBot_init (VInt 171)) (VKBot_init (VInt 172))
              (OfTypeRule (TypeRule_of (VStr "message_new"))) (VStr "message_new")
              (store 2) {| _handlers := [storing_handler 1] |}
              (message_event "hi") 0) as [w1 Hw].
  discriminate Hw.
Qed.

(** ** The model at work *)

(** An empty update makes an event without attributes; reading its type
    raises. *)
Example blank_event :
  Event_init (VDict []) = Ok EventBlank /\
  TypeRule_check (W := unit) (TypeRule_of (VStr "message_new")) EventBlank tt
  = (Raise AttributeError, tt, []).
Proof. split; reflexivity. Qed.

Example sample_update_event :
  Event_init sample_update
  = Ok (EventOf (VStr "message_new") (VDict [("text"%string, VStr "hi")]) (VInt 171)).
Proof. reflexivity. Qed.

(** [Rule().check(event)] *)
Example base_rule_check :
  Rule_check (W := unit) never_matches BaseRule (message_event "hi") tt
  = (Raise TypeError, tt, []).
Proof. reflexivity. Qed.

(** A rule with only [func_text] reads nothing of the message: on a
    [message_new] event whose object is [None] it returns what the
    predicate returns. *)
Example predicate_only_rule_on_empty_object :
  MessageRule_check (W := unit) never_matches
    (only_func_text (fun _ w => (Ok (VBool true), w)))
    (EventOf (VStr "message_new") VNone VNone) tt
  = (Ok (VBool true), tt, []).
Proof. reflexivity. Qed.

(** A user predicate that returns [None] cannot be or-ed into the flag
    either. *)
Example predicate_returning_none :
  MessageRule_check (W := unit) never_matches
    (only_func_text (fun _ w => (Ok VNone, w))) (message_event "hi") tt
  = (Raise TypeError, tt, []).
Proof. reflexivity. Qed.

(** A handler for any new message registered before one whose rule also
    asks a predicate: the first one's callback runs, once. *)
Example plain_rule_before_strict_rule :
  dispatch never_matches
    [storing_handler 1;
     {| func := store 2;
        rule := OfTypeRule {| TypeRule_type := VStr "message_new";
                              TypeRule_function :=
                                Some (fun _ w => (Ok (VBool false), w)) |} |}]
    (message_event "hi") 0
  = (Ok true, 1, [Invoke (store 1) (message_event "hi")]).
Proof. reflexivity. Qed.

(** A batch of three updates that no handler accepts: three warnings,
    and the cursor moves to the [ts] of the response. *)
Example unhandled_batch :
  run_step never_matches (VKBot_init (VInt 171)) false
    {| _handlers := [wall_handler] |}
    (PollBatch (VStr "https://lp.vk.com/wh171") (VStr "k1") (VStr "10"))
    (Ok (VDict [("ts"%string, VStr "13");
                ("updates"%string, VList [sample_update; sample_update; sample_update])]))
    0
  = (Ok (PollBatch (VStr "https://lp.vk.com/wh171") (VStr "k1") (VStr "13")), 0,
     [Log DEBUG "Got {0} new updates" [VInt 3];
      Log DEBUG "Processing update {0}: {1}" [VInt 0; sample_update];
      Log WARNING "Event {0} wasn't processed by any handler." [VStr "message_new"];
      Log DEBUG "Processing update {0}: {1}" [VInt 1; sample_update];
      Log WARNING "Event {0} wasn't processed by any handler." [VStr "message_new"];
      Log DEBUG "Processing update {0}: {1}" [VInt 2; sample_update];
      Log WARNING "Event {0} wasn't processed by any handler." [VStr "message_new"]]).
Proof. reflexivity. Qed.

(** A whole single-pass run: one descriptor, one batch handled by the
    registered handler, then failure code 2. *)
Example single_pass_run :
  run never_matches (VKBot_init (VInt 171)) false false
    {| _handlers := [storing_handler 1] |}
    [Ok (VDict sample_descriptor);
     Ok (VDict [("ts"%string, VStr "11"); ("updates"%string, VList [sample_update])]);
     Ok (VDict [("failed"%string, VInt 2)]);
     Ok (VDict sample_descriptor)] 0
  = (Ok Terminated, 1,
     [Log INFO "Getting new longpoll server" [];
      GetLongPollServer (VInt 171);
      Log DEBUG "getLongPollServer returned {0}" [VDict sample_descriptor];
      Log DEBUG "Getting updates" [];
      HttpGet (VStr "https://lp.vk.com/wh171") (VStr "k1") (VStr "10");
      Log DEBUG "Got {0} new updates" [VInt 1];
      Log DEBUG "Processing update {0}: {1}" [VInt 0; sample_update];
      Invoke (store 1)
        (EventOf (VStr "message_new") (VDict [("text"%string, VStr "hi")]) (VInt 171));
      Log DEBUG "Getting updates" [];
      HttpGet (VStr "https://lp.vk.com/wh171") (VStr "k1") (VStr "11");
      Log ERROR "LongPoll failed. Code: {0}" [VInt 2];
      Log INFO "Shutting down." []]).
Proof. reflexivity. Qed.

(** ** The further properties at sample inputs *)

Lemma MessageRule_check_any_of_witness :
  MessageRule_check never_matches sample_rule sample_message 0
  = (Ok (VBool true), 0, []).
Proof.
  refine (MessageRule_check_any_of never_matches sample_rule
            (VStr "message_new") (VInt 171)
            [("text"%string, VStr "hello");
             ("attachments"%string, VList [VDict [("type"%string, VStr "doc")]])]
            [VStr "photo"; VStr "doc"] [VDict [("type"%string, VStr "doc")]]
            ["/start"%string; "/help"%string] "hello" false false 0 0 0
            eq_refl eq_refl (or_intror eq_refl) _ eq_refl eq_refl
            (or_intror eq_refl) (fun _ => eq_refl)).
  intros _. split; [reflexivity|].
  constructor; [|constructor]. eexists. eexists. split; reflexivity.
Defined.

Lemma MessageRule_regexp_raises_witness :
  exists e w' t,
    MessageRule_check (W := unit) never_matches
      {| attachment_types := VNone; payload := VNone;
         func_text := Some (fun _ w => (Ok (VBool true), w)); func_msg := None;
         regexp := VStr "^/start"; commands := VNone |}
      (message_event "/start now") tt = (Raise e, w', t).
Proof.
  apply (MessageRule_regexp_raises never_matches
           {| attachment_types := VNone; payload := VNone;
              func_text := Some (fun _ w => (Ok (VBool true), w)); func_msg := None;
              regexp := VStr "^/start"; commands := VNone |}
           (VStr "message_new") (VDict [("text"%string, VStr "/start now")]) VNone tt).
  - reflexivity.
  - reflexivity.
  - intros id. discriminate.
  - intros g ev w w' id [= <-]. discriminate.
  - intros g ev w w' id. discriminate.
Defined.

Lemma MessageRule_check_no_condition_witness :
  MessageRule_check (W := unit) never_matches
    {| attachment_types := VList []; payload := VDict []; func_text := None;
       func_msg := None; regexp := VStr ""; commands := VList [] |}
    (EventOf (VStr "message_new") VNone VNone) tt
  = (Ok (VBool false), tt, []).
Proof.
  exact (MessageRule_check_no_condition never_matches
           {| attachment_types := VList []; payload := VDict []; func_text := None;
              func_msg := None; regexp := VStr ""; commands := VList [] |}
           (VStr "message_new") VNone VNone tt
           eq_refl eq_refl eq_refl eq_refl eq_refl eq_refl).
Defined.

Lemma only_func_text_result_witness :
  MessageRule_check (W := nat) never_matches
    (only_func_text (fun _ w => (Ok VNone, S w))) (message_event "hi") 0
  = (Raise TypeError, 1, []).
Proof.
  apply (only_func_text_result never_matches (fun _ w => (Ok VNone, S w))
           (VStr "message_new") (VDict [("text"%string, VStr "hi")]) VNone 0).
  - reflexivity.
  - intros id w'. discriminate.
Defined.

Lemma missing_field_raises_witness :
  MessageRule_check never_matches sample_rule
    (EventOf (VStr "message_new") (VDict [("text"%string, VStr "hello")]) VNone) 0
  = (Raise TypeError, 0, []).
Proof.
  exact (proj1 (missing_field_raises never_matches sample_rule (VStr "message_new")
                  VNone [("text"%string, VStr "hello")] 0 eq_refl)
           eq_refl eq_refl).
Defined.


Lemma registration_cannot_preempt_witness :
  dispatch never_matches
    (self_handlers (VKBot_init (VInt 172))
       (register {| _handlers := [storing_handler 1] |}
          (ByRule (VKBot_init (VInt 171)) None (VStr "message_new") (store 2))))
    (message_event "hi") 0
  = (Ok true, 1, [Invoke (store 1) (message_event "hi")]).
Proof.
  refine (registration_cannot_preempt never_matches (VKBot_init (VInt 171))
            (VKBot_init (VInt 172))
            (ByRule (VKBot_init (VInt 171)) None (VStr "message_new") (store 2))
            {| _handlers := [storing_handler 1] |} (message_event "hi") 0 1
            (Ok true) [Invoke (store 1) (message_event "hi")] eq_refl _).
  discriminate.
Defined.

Lemma process_update_outcome_witness :
  process_update never_matches (VKBot_init (VInt 171))
    {| _handlers := [wall_handler] |} 0 sample_update 0
  = (Ok tt, 0,
     [Log DEBUG "Processing update {0}: {1}" [VInt 0; sample_update];
      Log WARNING "Event {0} wasn't processed by any handler." [VStr "message_new"]]).
Proof.
  exact (process_update_outcome never_matches (VKBot_init (VInt 171))
           {| _handlers := [wall_handler] |} 0 sample_update
           (EventOf (VStr "message_new") (VDict [("text"%string, VStr "hi")]) (VInt 171))
           false 0 0 [] eq_refl eq_refl).
Defined.

Lemma unusable_update_raises_witness :
  process_update never_matches (VKBot_init (VInt 171))
    {| _handlers := [wall_handler; storing_handler 1] |} 0 (VDict []) 0
  = (Raise AttributeError, 0,
     [Log DEBUG "Processing update {0}: {1}" [VInt 0; VDict []]]).
Proof.
  refine (unusable_update_raises never_matches (VKBot_init (VInt 171))
            {| _handlers := [wall_handler; storing_handler 1] |} 0 (VDict []) 0 _ _).
  - intros d [= <-]. reflexivity.
  - repeat constructor.
Defined.

Lemma update_exception_ends_run_witness :
  run_from never_matches (VKBot_init (VInt 171)) true
    {| _handlers := [storing_handler 1] |}
    (PollBatch (VStr "https://lp.vk.com/wh171") (VStr "k1") (VStr "10"))
    [Ok (VDict [("ts"%string, VStr "11");
                ("updates"%string, VList ([sample_update] ++ VDict [] :: [sample_update]))]);
     Ok (VDict sample_descriptor)] 0
  = (Raise AttributeError, 1,
     [Log DEBUG "Getting updates" [];
      HttpGet (VStr "https://lp.vk.com/wh171") (VStr "k1") (VStr "10");
      Log DEBUG "Got {0} new updates" [VInt 3]] ++
     [Log DEBUG "Processing update {0}: {1}" [VInt 0; sample_update];
      Invoke (store 1)
        (EventOf (VStr "message_new") (VDict [("text"%string, VStr "hi")]) (VInt 171))] ++
     [Log DEBUG "Processing update {0}: {1}" [VInt 1; VDict []]]).
Proof.
  exact (update_exception_ends_run never_matches (VKBot_init (VInt 171)) true
           {| _handlers := [storing_handler 1] |}
           (VStr "https://lp.vk.com/wh171") (VStr "k1") (VStr "10") (VDict [])
           [("ts"%string, VStr "11");
            ("updates"%string, VList ([sample_update] ++ VDict [] :: [sample_update]))]
           [sample_update] [sample_update] AttributeError 0 1 1 _ _
           [Ok (VDict sample_descriptor)]
           eq_refl eq_refl eq_refl eq_refl).
Defined.

Lemma failure_code_1_repeats_witness :
  run_from (W := nat) never_matches (VKBot_init (VInt 171)) false
    {| _handlers := [storing_handler 1] |}
    (PollBatch (VStr "https://lp.vk.com/wh171") (VStr "k1") (VStr "10"))
    (repeat (Ok (VDict [("failed"%string, VInt 1)])) 3) 0
  = (Ok (PollBatch (VStr "https://lp.vk.com/wh171") (VStr "k1") (VStr "10")), 0,
     List.concat
       (repeat [Log DEBUG "Getting updates" [];
                HttpGet (VStr "https://lp.vk.com/wh171") (VStr "k1") (VStr "10");
                Log ERROR "LongPoll failed. Code: {0}" [VInt 1]] 3)).
Proof.
  exact (failure_code_1_repeats never_matches (VKBot_init (VInt 171)) false
           {| _handlers := [storing_handler 1] |}
           (VStr "https://lp.vk.com/wh171") (VStr "k1") (VStr "10") (VInt 1)
           [("failed"%string, VInt 1)] 3 0 eq_refl eq_refl).
Defined.

Lemma incomplete_descriptor_raises_witness :
  run (W := nat) never_matches (VKBot_init (VInt 171)) false true
    {| _handlers := [storing_handler 1] |}
    [Ok (VDict [("server"%string, VStr "https://lp.vk.com/wh171");
                ("ts"%string, VStr "10")]);
     Ok (VDict [("ts"%string, VStr "11")])] 0
  = (Raise KeyError, 0,
     [Log INFO "Getting new longpoll server" [];
      GetLongPollServer (VInt 171);
      Log DEBUG "getLongPollServer returned {0}"
        [VDict [("server"%string, VStr "https://lp.vk.com/wh171");
                ("ts"%string, VStr "10")]]]).
Proof.
  exact (incomplete_descriptor_raises never_matches (VKBot_init (VInt 171)) false true
           {| _handlers := [storing_handler 1] |}
           [("server"%string, VStr "https://lp.vk.com/wh171"); ("ts"%string, VStr "10")]
           [Ok (VDict [("ts"%string, VStr "11")])] 0
           (or_intror (or_intror eq_refl))).
Defined.
